(** * langroid: the web search layer

    A shallow embedding of [langroid/parsing/web_search.py] and of
    [langroid/agent/tools/metaphor_search_tool.py], and the properties of
    the search pipeline proved on it.

    Python values that the code receives from [json.loads] are dynamically
    typed and are embedded as [pyval].  Everything outside the repository
    (the HTTP layer of [requests], the Google API client, [json.loads],
    BeautifulSoup, [load_dotenv], the built-in [str]) is a variable of the
    section [Search]; the code that calls them is embedded as written.
    Effects are threaded through a state-and-exception monad [M] over
    [world]: the process environment and the log of calls handed to the
    network. *)

From Stdlib Require Import ZArith String Ascii List Lia.
From stdpp Require Import base option list gmap strings.

Local Open Scope string_scope.

(** ** Python strings and slicing *)

(** The first [n] characters of [s] (all of [s] when it is shorter). *)
Fixpoint str_take (n : nat) (s : string) : string :=
  match n, s with
  | S n', String c s' => String c (str_take n' s')
  | _, _ => EmptyString
  end.

(** [len(s)] as a Python integer. *)
Definition len (s : string) : Z := Z.of_nat (String.length s).

(** [s[:stop]], with Python's treatment of the bound: a negative [stop]
    counts from the end, and the result is clipped to [0 .. len(s)]. *)
Definition slice_to (s : string) (stop : Z) : string :=
  let stop := if (stop <? 0)%Z then (stop + len s)%Z else stop in
  let stop := if (stop <? 0)%Z then 0%Z
              else if (len s <? stop)%Z then len s else stop in
  str_take (Z.to_nat stop) s.

(** [sep.join(parts)]. *)
Definition join (sep : string) (parts : list string) : string :=
  String.concat sep parts.

(** [a] is a prefix of [b]. *)
Definition is_prefix (a b : string) : Prop := exists rest, b = a ++ rest.

Definition nl : string := String (ascii_of_nat 10) EmptyString.

(** ** Python values, exceptions, the world *)

(** The values [json.loads] produces.  A float is opaque to this code and
    is kept as its bit pattern; a dict keeps its keys in insertion order. *)
#[warnings="-register-all"]
Inductive pyval : Type :=
| PNone
| PBool (b : bool)
| PInt (z : Z)
| PFloat (bits : Z)
| PStr (s : string)
| PList (items : list pyval)
| PDict (entries : list (string * pyval)).

(** The exceptions that reach the caller.  [LibraryError] stands for any
    exception raised inside an external library (a connection error of
    [requests], an [HttpError] of the Google client, ...). *)
Inductive exn : Type :=
| ValueError (msg : string)
| JSONDecodeError
| KeyError (key : string)
| TypeError
| LibraryError (name : string).

Inductive outcome (A : Type) : Type :=
| Ok (a : A)
| Raise (e : exn).
Arguments Ok {A} a.
Arguments Raise {A} e.

(** A call handed to the network layer. *)
Inductive net_call : Type :=
| HttpGet (url : pyval)
| HttpPost (url : string) (json : list (string * pyval))
    (headers : list (string * string))
| GoogleCseList (developerKey : option string) (q : string)
    (cx : option string) (num : Z).

Record world : Type := mkWorld {
  environ : gmap string string;
  net_log : list net_call
}.

(** Computations of the embedded code: they read and extend the world and
    either return a value or raise. *)
Definition M (A : Type) : Type := world -> outcome A * world.

#[global] Instance M_ret : MRet M := fun A a w => (Ok a, w).
#[global] Instance M_bind : MBind M := fun A B f m w =>
  match m w with
  | (Ok a, w') => f a w'
  | (Raise e, w') => (Raise e, w')
  end.

Definition raise {A : Type} (e : exn) : M A := fun w => (Raise e, w).

(** An [outcome] that does not touch the world. *)
Definition lift {A : Type} (o : outcome A) : M A := fun w => (o, w).

(** [[f(x) for x in xs]]: left to right, stopping at the first exception. *)
Fixpoint list_comprehension {A B : Type} (f : A -> M B) (xs : list A)
  : M (list B) :=
  match xs with
  | [] => mret []
  | x :: xs' =>
      y ← f x;
      ys ← list_comprehension f xs';
      mret (y :: ys)
  end.

(** [os.getenv(name)]. *)
Definition getenv (name : string) : M (option string) :=
  fun w => (Ok (environ w !! name), w).

(** [d[key]] on a dict given by its entries. *)
Fixpoint dict_get (entries : list (string * pyval)) (key : string)
  : option pyval :=
  match entries with
  | [] => None
  | (k, v) :: rest => if String.eqb k key then Some v else dict_get rest key
  end.

(** [v[key]] for a string [key]: only a dict can be subscripted by a
    string; a missing key is a [KeyError], any other value a [TypeError]. *)
Definition getitem (v : pyval) (key : string) : outcome pyval :=
  match v with
  | PDict entries =>
      match dict_get entries key with
      | Some x => Ok x
      | None => Raise (KeyError key)
      end
  | _ => Raise TypeError
  end.

(** The characters of a string, each as a string of length one. *)
Fixpoint chars (s : string) : list string :=
  match s with
  | EmptyString => []
  | String c s' => String c EmptyString :: chars s'
  end.

(** [for x in v]: a list yields its items, a dict its keys, a string its
    characters; the other values are not iterable. *)
Definition py_iter (v : pyval) : outcome (list pyval) :=
  match v with
  | PList items => Ok items
  | PDict entries => Ok (map (fun kv => PStr (fst kv)) entries)
  | PStr s => Ok (map PStr (chars s))
  | _ => Raise TypeError
  end.

(** [not v] for the value of [os.getenv]: [None] and the empty string are
    the falsy ones. *)
Definition falsy (v : option string) : bool :=
  match v with
  | None => true
  | Some s => String.eqb s ""
  end.

(** ** web_search.py *)

(** An instance of [class WebSearchResult].  The annotations [title: str]
    and [link: str] are not enforced at run time, and [metaphor_search]
    and [google_search] pass on whatever the provider's JSON holds, so the
    two attributes are [pyval]s. *)
Record WebSearchResult : Type := mkWebSearchResult {
  title : pyval;
  link : pyval;
  max_content_length : Z;
  max_summary_length : Z;
  full_content : string;
  summary : string
}.

Definition set_full_content (v : string) (self : WebSearchResult)
  : WebSearchResult :=
  mkWebSearchResult (title self) (link self) (max_content_length self)
    (max_summary_length self) v (summary self).

Definition set_summary (v : string) (self : WebSearchResult)
  : WebSearchResult :=
  mkWebSearchResult (title self) (link self) (max_content_length self)
    (max_summary_length self) (full_content self) v.

(** The message of the [ValueError] of [metaphor_search], a triple-quoted
    literal that keeps the indentation of its lines. *)
Definition indent12 : string := "            ".

Definition METAPHOR_API_KEY_not_set : string :=
  nl ++ indent12 ++ "METAPHOR_API_KEY is not set. " ++
  nl ++ indent12 ++ "Please set the METAPHOR_API_KEY environment variable." ++
  nl ++ indent12.

(** ** A test double of the outside world

    The scenarios on which the theorems below are run: a Metaphor endpoint
    that answers the query ["capital of France"] with one hit and any other
    query with two, three pages, and an environment that holds the key. *)
Module Scenario.

Definition paris_url : string := "http://example.com/paris".
Definition lyon_url : string := "http://example.com/lyon".
Definition paris_page : string :=
  "<html><body><p>Paris is the capital of France.</p></body></html>".
Definition lyon_page : string :=
  "<html><body><h1>Lyon</h1><p>A city on the Rhone.</p></body></html>".
Definition one_hit_reply : string := "reply with one hit".
Definition two_hit_reply : string := "reply with two hits".
Definition html_error_page : string := "<html>502 Bad Gateway</html>".
Definition reply_without_results : string := "reply without results".

Definition paris_hit : pyval :=
  PDict [("title", PStr "Paris"); ("url", PStr paris_url)].
Definition lyon_hit : pyval :=
  PDict [("title", PStr "Lyon"); ("url", PStr lyon_url); ("score", PFloat 0)].

Definition dotenv (env : gmap string string) : gmap string string := env.

Definition http (log : list net_call) (call : net_call) : outcome string :=
  match call with
  | HttpPost _ (("query", PStr q) :: _) _ =>
      if String.eqb q "capital of France" then Ok one_hit_reply
      else if String.eqb q "gateway down" then Ok html_error_page
      else if String.eqb q "odd reply" then Ok reply_without_results
      else Ok two_hit_reply
  | HttpGet (PStr u) =>
      if String.eqb u paris_url then Ok paris_page
      else if String.eqb u lyon_url then Ok lyon_page
      else Raise (LibraryError "ConnectionError")
  | _ => Raise (LibraryError "ConnectionError")
  end.

Definition google (log : list net_call) (call : net_call) : outcome pyval :=
  match call with
  | GoogleCseList _ _ _ _ =>
      Ok (PDict [("items",
                  PList [PDict [("title", PStr "Paris");
                                ("link", PStr paris_url)]])])
  | _ => Raise (LibraryError "HttpError")
  end.

Definition json_loads_opt (text : string) : option pyval :=
  if String.eqb text one_hit_reply then
    Some (PDict [("results", PList [paris_hit])])
  else if String.eqb text two_hit_reply then
    Some (PDict [("results", PList [lyon_hit; paris_hit])])
  else if String.eqb text reply_without_results then
    Some (PDict [("error", PStr "rate limit exceeded")])
  else None.

Definition stripped_strings (text : string) : list string :=
  if String.eqb text paris_page then ["Paris is the capital of France."]
  else if String.eqb text lyon_page then ["Lyon"; "A city on the Rhone."]
  else [].

Definition builtin_str (v : pyval) : string :=
  match v with
  | PNone => "None"
  | PBool true => "True"
  | PBool false => "False"
  | _ => "?"
  end.

(** An environment with the Metaphor key and without the Google ones. *)
Definition with_key : world :=
  mkWorld {["METAPHOR_API_KEY" := "secret"]} [].

Definition without_key : world := mkWorld ∅ [].

Definition with_empty_key : world :=
  mkWorld {["METAPHOR_API_KEY" := ""]} [].

(** The values the scenarios are expected to produce. *)
Definition paris_text : string := "Paris is the capital of France.".
Definition lyon_text : string := "Lyon A city on the Rhone.".

Definition paris_result : WebSearchResult :=
  mkWebSearchResult (PStr "Paris") (PStr paris_url) 3500 300
    paris_text paris_text.
Definition lyon_result : WebSearchResult :=
  mkWebSearchResult (PStr "Lyon") (PStr lyon_url) 3500 300
    lyon_text lyon_text.

Definition paris_block : string :=
  "Title: Paris" ++ nl ++ "Link: http://example.com/paris" ++ nl ++
  "Summary: Paris is the capital of France.".
Definition lyon_block : string :=
  "Title: Lyon" ++ nl ++ "Link: http://example.com/lyon" ++ nl ++
  "Summary: Lyon A city on the Rhone.".

Definition metaphor_post (q : string) (n : Z) : net_call :=
  HttpPost "https://api.metaphor.systems/search"
    [("query", PStr q); ("numResults", PInt n)]
    [("accept", "application/json");
     ("content-type", "application/json");
     ("x-api-key", "secret")].

(** The world [with_key] after the calls [calls]. *)
Definition with_key_after (calls : list net_call) : world :=
  mkWorld {["METAPHOR_API_KEY" := "secret"]} calls.

End Scenario.

(** ** A second test double, with faults

    A Metaphor endpoint whose replies hold a dead link, no hit at all, or a
    [results] field that is a dict, hits that lack a field, and a Google
    client that finds nothing. *)
Module Faults.

Definition dead_url : string := "http://example.com/gone".

Definition dead_hit : pyval :=
  PDict [("title", PStr "Gone"); ("url", PStr dead_url)].
Definition untitled_hit : pyval :=
  PDict [("url", PStr Scenario.paris_url)].

Definition dead_link_reply : string := "reply with a dead link".
Definition no_hit_reply : string := "reply with no hit".
Definition dict_reply : string := "reply with results as a dict".

Definition http (log : list net_call) (call : net_call) : outcome string :=
  match call with
  | HttpPost _ (("query", PStr q) :: _) _ =>
      if String.eqb q "dead link" then Ok dead_link_reply
      else if String.eqb q "nothing" then Ok no_hit_reply
      else Ok dict_reply
  | HttpGet (PStr u) =>
      if String.eqb u Scenario.paris_url then Ok Scenario.paris_page
      else if String.eqb u Scenario.lyon_url then Ok Scenario.lyon_page
      else Raise (LibraryError "ConnectionError")
  | _ => Raise (LibraryError "ConnectionError")
  end.

Definition results_as_dict : pyval :=
  PDict [("Paris", PStr Scenario.paris_url)].

Definition json_loads_opt (text : string) : option pyval :=
  if String.eqb text dead_link_reply then
    Some (PDict [("results",
                  PList [Scenario.paris_hit; dead_hit; Scenario.lyon_hit])])
  else if String.eqb text no_hit_reply then
    Some (PDict [("results", PList [])])
  else if String.eqb text dict_reply then
    Some (PDict [("results", results_as_dict)])
  else None.

(** The reply of the Google client to a query that matches nothing: it
    has no [items] field. *)
Definition nothing_found : pyval :=
  PDict [("kind", PStr "customsearch#search");
         ("searchInformation", PDict [("totalResults", PStr "0")])].

Definition google (log : list net_call) (call : net_call) : outcome pyval :=
  match call with
  | GoogleCseList _ _ _ _ => Ok nothing_found
  | _ => Raise (LibraryError "HttpError")
  end.

End Faults.

(** ** A page that quotes a search result

    A hit whose page holds, after a blank line, a text that looks like a
    result of its own. *)
Module Quoting.

Definition quote_url : string := "http://example.com/quote".

(** The text node of the page: a line, a blank line, three lines. *)
Definition quoted_text : string :=
  "x" ++ nl ++ nl ++ "Title: a" ++ nl ++ "Link: b" ++ nl ++ "Summary: c".

Definition quote_page : string :=
  "<html><body><pre>" ++ quoted_text ++ "</pre></body></html>".

Definition quote_reply : string := "reply with a quoting page".

Definition quote_hit : pyval :=
  PDict [("title", PStr "Quote"); ("url", PStr quote_url)].

Definition http (log : list net_call) (call : net_call) : outcome string :=
  match call with
  | HttpPost _ _ _ => Ok quote_reply
  | HttpGet (PStr u) =>
      if String.eqb u quote_url then Ok quote_page
      else Raise (LibraryError "ConnectionError")
  | _ => Raise (LibraryError "ConnectionError")
  end.

Definition json_loads_opt (text : string) : option pyval :=
  if String.eqb text quote_reply then
    Some (PDict [("results", PList [quote_hit])])
  else None.

Definition stripped_strings (text : string) : list string :=
  if String.eqb text quote_page then [quoted_text] else [].

Definition first_block : string :=
  "Title: Quote" ++ nl ++ "Link: http://example.com/quote" ++ nl ++
  "Summary: x".
Definition second_block : string :=
  "Title: a" ++ nl ++ "Link: b" ++ nl ++ "Summary: c".

End Quoting.

(** ** A Google client that ranks two items *)
Module Ranked.

Definition lyon_item : pyval :=
  PDict [("kind", PStr "customsearch#result");
         ("title", PStr "Lyon");
         ("link", PStr Scenario.lyon_url)].
Definition paris_item : pyval :=
  PDict [("title", PStr "Paris"); ("link", PStr Scenario.paris_url)].

Definition google (log : list net_call) (call : net_call) : outcome pyval :=
  match call with
  | GoogleCseList _ _ _ _ =>
      Ok (PDict [("kind", PStr "customsearch#search");
                 ("items", PList [lyon_item; paris_item])])
  | _ => Raise (LibraryError "HttpError")
  end.

End Ranked.

Section Search.

(** What [load_dotenv()] makes of [os.environ]. *)
Variable dotenv : gmap string string -> gmap string string.

(** The remote side of [requests]: given the calls made so far and the
    call, the [text] of the response, or the exception raised. *)
Variable http : list net_call -> net_call -> outcome string.

(** The Google API client:
    [build("customsearch", "v1", developerKey=k).cse().list(q=.., cx=..,
    num=..).execute()], the decoded reply or the exception raised. *)
Variable google : list net_call -> net_call -> outcome pyval.

(** [json.loads]; [None] when the text is not a JSON document. *)
Variable json_loads_opt : string -> option pyval.

(** [BeautifulSoup(text, "lxml").stripped_strings]. *)
Variable stripped_strings : string -> list string.

(** The built-in [str] on the values that are not strings. *)
Variable builtin_str : pyval -> string.

Definition load_dotenv : M unit :=
  fun w => (Ok tt, mkWorld (dotenv (environ w)) (net_log w)).

(** Hands [call] to the network layer [remote]: the call is logged, and
    the reply (or the exception) is the one of the remote side. *)
Definition net_request {A : Type}
    (remote : list net_call -> net_call -> outcome A) (call : net_call)
  : M A :=
  fun w => (remote (net_log w) call,
            mkWorld (environ w) (net_log w ++ [call])).

(** [requests.get(url).text] *)
Definition requests_get (url : pyval) : M string :=
  net_request http (HttpGet url).

(** [requests.post(url, json=json, headers=headers).text] *)
Definition requests_post (url : string) (json : list (string * pyval))
    (headers : list (string * string)) : M string :=
  net_request http (HttpPost url json headers).

Definition json_loads (text : string) : outcome pyval :=
  match json_loads_opt text with
  | Some v => Ok v
  | None => Raise JSONDecodeError
  end.

(** [f"{v}"]: a string is inserted as it is. *)
Definition py_format (v : pyval) : string :=
  match v with
  | PStr s => s
  | _ => builtin_str v
  end.

(** [WebSearchResult.get_summary] *)
Definition get_summary (self : WebSearchResult) : string :=
  slice_to (full_content self) (max_summary_length self).

(** [WebSearchResult.get_full_content] *)
Definition get_full_content (self : WebSearchResult) : M string :=
  response ← requests_get (link self);
  let soup := stripped_strings response in
  let text := join " " soup in
  mret (slice_to text (max_content_length self)).

(** [WebSearchResult.__init__].  [self] starts with the four attributes
    assigned from the arguments; the two that are assigned last hold [""]
    until then and are not read before. *)
Definition WebSearchResult_init (title link : pyval)
    (max_content_length max_summary_length : Z) : M WebSearchResult :=
  let self := mkWebSearchResult title link max_content_length
                max_summary_length "" "" in
  content ← get_full_content self;
  let self := set_full_content content self in
  let self := set_summary (get_summary self) self in
  mret self.

(** [WebSearchResult.__str__] *)
Definition WebSearchResult_str (self : WebSearchResult) : string :=
  "Title: " ++ py_format (title self) ++ nl ++
  "Link: " ++ py_format (link self) ++ nl ++
  "Summary: " ++ summary self.

(** [WebSearchResult.to_dict] *)
Definition to_dict (self : WebSearchResult) : gmap string pyval :=
  <["full_content" := PStr (full_content self)]>
    (<["summary" := PStr (summary self)]>
       (<["link" := link self]>
          (<["title" := title self]> ∅))).

(** The body of the two list comprehensions: a result from the raw hit
    [result], whose link is under the key [url_key]. *)
Definition result_of_hit (url_key : string) (result : pyval)
  : M WebSearchResult :=
  t ← lift (getitem result "title");
  u ← lift (getitem result url_key);
  WebSearchResult_init t u 3500 300.

(** [google_search] *)
Definition google_search (query : string) (num_results : Z)
  : M (list WebSearchResult) :=
  _ ← load_dotenv;
  api_key ← getenv "GOOGLE_API_KEY";
  cse_id ← getenv "GOOGLE_CSE_ID";
  reply ← net_request google (GoogleCseList api_key query cse_id num_results);
  raw_results ← lift (getitem reply "items");
  hits ← lift (py_iter raw_results);
  list_comprehension (result_of_hit "link") hits.

(** [metaphor_search] *)
Definition metaphor_search (query : string) (num_results : Z)
  : M (list WebSearchResult) :=
  _ ← load_dotenv;
  let url := "https://api.metaphor.systems/search" in
  api_key ← getenv "METAPHOR_API_KEY";
  if falsy api_key then raise (ValueError METAPHOR_API_KEY_not_set)
  else
    let api_key := default "" api_key in
    let payload := [("query", PStr query); ("numResults", PInt num_results)] in
    let headers := [("accept", "application/json");
                    ("content-type", "application/json");
                    ("x-api-key", api_key)] in
    response ← requests_post url payload headers;
    parsed ← lift (json_loads response);
    raw_results ← lift (getitem parsed "results");
    hits ← lift (py_iter raw_results);
    list_comprehension (result_of_hit "url") hits.

(** ** metaphor_search_tool.py *)

(** [class MetaphorSearchTool(ToolMessage)], a pydantic model. *)
Record MetaphorSearchTool : Type := mkMetaphorSearchTool {
  request : string;
  purpose : string;
  query : string;
  num_results : Z
}.

Definition default_purpose : string :=
  nl ++ indent12 ++
  "To search the web by metaphor api and return up to <num_results> " ++
  nl ++ indent12 ++ "links relevant to the given <query>. " ++
  nl ++ indent12.

(** [MetaphorSearchTool(query=.., num_results=..)] *)
Definition MetaphorSearchTool_new (query : string) (num_results : Z)
  : MetaphorSearchTool :=
  mkMetaphorSearchTool "metaphor_search" default_purpose query num_results.

(** [MetaphorSearchTool.handle] *)
Definition handle (self : MetaphorSearchTool) : M string :=
  search_results ← metaphor_search (query self) (num_results self);
  mret (join (nl ++ nl) (map WebSearchResult_str search_results)).


(** ** Vocabulary of the statements *)

(** The world after [load_dotenv()]. *)
Definition loaded (w : world) : world :=
  mkWorld (dotenv (environ w)) (net_log w).

(** The world after the page at [link] was requested. *)
Definition fetched (link : pyval) (w : world) : world :=
  mkWorld (environ w) (net_log w ++ [HttpGet link]).

(** The world after the pages of [rs] were requested, in this order. *)
Definition after_fetches (w : world) (rs : list WebSearchResult) : world :=
  mkWorld (environ w) (net_log w ++ map (fun r => HttpGet (link r)) rs).

(** The visible text of a page: [" ".join(soup.stripped_strings)]. *)
Definition page_text (response : string) : string :=
  join " " (stripped_strings response).

(** The POST that [metaphor_search] sends. *)
Definition metaphor_call (query : string) (num_results : Z)
    (api_key : string) : net_call :=
  HttpPost "https://api.metaphor.systems/search"
    [("query", PStr query); ("numResults", PInt num_results)]
    [("accept", "application/json");
     ("content-type", "application/json");
     ("x-api-key", api_key)].

(** The world after [metaphor_search] has sent its POST. *)
Definition posted (query : string) (num_results : Z) (api_key : string)
    (w : world) : world :=
  mkWorld (dotenv (environ w))
    (net_log w ++ [metaphor_call query num_results api_key]).

(** The call that [google_search] hands to the Google client. *)
Definition google_call (query : string) (num_results : Z) (w : world)
  : net_call :=
  GoogleCseList (dotenv (environ w) !! "GOOGLE_API_KEY") query
    (dotenv (environ w) !! "GOOGLE_CSE_ID") num_results.

(** The world after [google_search] has called the Google client. *)
Definition called (query : string) (num_results : Z) (w : world) : world :=
  mkWorld (dotenv (environ w))
    (net_log w ++ [google_call query num_results w]).

(** In the world [w] the Metaphor backend, asked with the key [api_key],
    returns the raw hits [hits]: the reply to the POST is a JSON document
    and the loop over its [results] runs over [hits]. *)
Definition backend_returned (query : string) (num_results : Z) (w : world)
    (api_key : string) (hits : list pyval) : Prop :=
  dotenv (environ w) !! "METAPHOR_API_KEY" = Some api_key ∧
  api_key ≠ "" ∧
  ∃ response parsed raw_results,
    http (net_log w) (metaphor_call query num_results api_key) = Ok response ∧
    json_loads_opt response = Some parsed ∧
    getitem parsed "results" = Ok raw_results ∧
    py_iter raw_results = Ok hits.

(** [v] is a dict with an entry under [key]. *)
Definition has_field (v : pyval) (key : string) : Prop :=
  ∃ entries x, v = PDict entries ∧ dict_get entries key = Some x.

(** [call] is the request of a page. *)
Definition is_get (call : net_call) : Prop := ∃ url, call = HttpGet url.

(** A result as the two searches build it: with the limits 3500 and 300,
    and with a full content and a summary within them. *)
Definition within_default_limits (r : WebSearchResult) : Prop :=
  max_content_length r = 3500%Z ∧ max_summary_length r = 300%Z ∧
  (len (full_content r) ≤ 3500)%Z ∧ (len (summary r) ≤ 300)%Z ∧
  is_prefix (summary r) (full_content r).

(** [c] is the newline character. *)
Definition is_nl (c : ascii) : bool := Ascii.eqb c (ascii_of_nat 10).

(** [text.split("\n\n")]: the pieces of [text] between its blank lines,
    read from left to right. *)
Fixpoint paragraphs (text : string) : list string :=
  match text with
  | EmptyString => [EmptyString]
  | String c rest =>
      match rest with
      | EmptyString => [String c EmptyString]
      | String c' rest' =>
          if is_nl c && is_nl c' then EmptyString :: paragraphs rest'
          else
            match paragraphs rest with
            | p :: ps => String c p :: ps
            | [] => [String c EmptyString]
            end
      end
  end.

(** The blocks that a reader finds in [text]: none in the empty text,
    otherwise what stands between its blank lines. *)
Definition blocks_of (text : string) : list string :=
  match text with
  | EmptyString => []
  | _ => paragraphs text
  end.

(** [s] has no blank line inside (no two newlines in a row) and no
    newline at its end. *)
Fixpoint solid (s : string) : bool :=
  match s with
  | EmptyString => true
  | String c rest =>
      if is_nl c then
        match rest with
        | EmptyString => false
        | String c' _ => negb (is_nl c') && solid rest
        end
      else solid rest
  end.

(** What the format string [f"{v}"] of the specification inserts for the
    value [v]: a string as it is, any other value through the built-in
    [str]. *)
Definition inserted (v : pyval) : string :=
  match v with
  | PStr s => s
  | _ => builtin_str v
  end.

(** The block that the specification asks for per result, in its words:
    ["Title: {title}\nLink: {link}\nSummary: {summary}"]. *)
Definition spec_block (r : WebSearchResult) : string :=
  "Title: " ++ inserted (title r) ++ nl ++
  "Link: " ++ inserted (link r) ++ nl ++
  "Summary: " ++ summary r.

(** The three fields that enter the text of a result are [solid]. *)
Definition solid_fields (r : WebSearchResult) : Prop :=
  solid (inserted (title r)) = true ∧
  solid (inserted (link r)) = true ∧
  solid (summary r) = true.

(** ** Slicing *)

Lemma str_take_length (n : nat) (s : string) :
  String.length (str_take n s) = Nat.min n (String.length s).
Proof.
  revert s; induction n as [|n IH]; intros [|c s]; simpl; auto.
Qed.

Lemma str_take_prefix (n : nat) (s : string) : is_prefix (str_take n s) s.
Proof.
  revert s; induction n as [|n IH]; intros s.
  - exists s. destruct s; reflexivity.
  - destruct s as [|c s]; [exists ""; reflexivity|].
    destruct (IH s) as [rest Hrest]. exists rest. simpl. change (String c s = String c (str_take n s ++ rest)).
    by rewrite <- Hrest.
Qed.

Lemma slice_to_prefix (s : string) (stop : Z) : is_prefix (slice_to s stop) s.
Proof. apply str_take_prefix. Qed.

(** The length of [s[:stop]], for either sign of [stop]. *)
Lemma slice_to_len (s : string) (stop : Z) :
  len (slice_to s stop) =
  if (stop <? 0)%Z then Z.max 0 (len s + stop) else Z.min stop (len s).
Proof.
  unfold slice_to, len. rewrite str_take_length.
  repeat case_match; lia.
Qed.

Lemma slice_to_len_le (s : string) (stop : Z) :
  (0 ≤ stop)%Z → (len (slice_to s stop) ≤ stop)%Z.
Proof. intros H. rewrite slice_to_len. case_match; lia. Qed.

Lemma slice_to_len_exact (s : string) (stop : Z) :
  (0 ≤ stop)%Z → (stop ≤ len s)%Z → len (slice_to s stop) = stop.
Proof. intros H1 H2. rewrite slice_to_len. case_match; lia. Qed.

(** ** The monad *)

Lemma bind_Ok_inv {A B : Type} (m : M A) (f : A → M B) w b w' :
  (m ≫= f) w = (Ok b, w') →
  ∃ a w1, m w = (Ok a, w1) ∧ f a w1 = (Ok b, w').
Proof.
  unfold mbind, M_bind. destruct (m w) as [[a|e] w1]; [eauto|discriminate].
Qed.

Lemma bind_Ok {A B : Type} (m : M A) (f : A → M B) w a w1 :
  m w = (Ok a, w1) → (m ≫= f) w = f a w1.
Proof. unfold mbind, M_bind. by intros ->. Qed.

Lemma bind_Raise_stop {A B : Type} (m : M A) (f : A → M B) w e w1 :
  m w = (Raise e, w1) → (m ≫= f) w = (Raise e, w1).
Proof. unfold mbind, M_bind. by intros ->. Qed.

Lemma lift_Ok_inv {A : Type} (o : outcome A) w a w' :
  lift o w = (Ok a, w') → o = Ok a ∧ w' = w.
Proof. unfold lift. by intros [= -> ->]. Qed.

(** ** WebSearchResult *)

(** [__init__] in one step: one GET of [lnk], then the two slices. *)
Lemma WebSearchResult_init_unfold ttl lnk mcl msl w :
  WebSearchResult_init ttl lnk mcl msl w =
  match http (net_log w) (HttpGet lnk) with
  | Ok response =>
      let content := slice_to (page_text response) mcl in
      (Ok (mkWebSearchResult ttl lnk mcl msl content
             (slice_to content msl)),
       fetched lnk w)
  | Raise e => (Raise e, fetched lnk w)
  end.
Proof.
  unfold WebSearchResult_init, get_full_content, requests_get, net_request,
    mbind, M_bind, mret, M_ret; simpl.
  destruct (http (net_log w) (HttpGet lnk)); reflexivity.
Qed.

Lemma WebSearchResult_init_Ok_inv ttl lnk mcl msl w r w' :
  WebSearchResult_init ttl lnk mcl msl w = (Ok r, w') →
  ∃ response,
    http (net_log w) (HttpGet lnk) = Ok response ∧
    r = mkWebSearchResult ttl lnk mcl msl
          (slice_to (page_text response) mcl)
          (slice_to (slice_to (page_text response) mcl) msl) ∧
    w' = fetched lnk w.
Proof.
  rewrite WebSearchResult_init_unfold.
  destruct (http (net_log w) (HttpGet lnk)) as [response|e];
    [|discriminate].
  simpl. intros [= <- <-]. eauto.
Qed.

(** C1 (as amended): a constructed result has
    [summary == full_content[:max_summary_length]], so the summary is a
    prefix of the full content, and it has at most [max_summary_length]
    characters whenever [max_summary_length] is not negative. *)
Theorem summary_is_slice_of_full_content ttl lnk mcl msl w r w' :
  WebSearchResult_init ttl lnk mcl msl w = (Ok r, w') →
  summary r = slice_to (full_content r) msl ∧
  is_prefix (summary r) (full_content r) ∧
  ((0 ≤ msl)%Z → (len (summary r) ≤ msl)%Z).
Proof.
  intros H. apply WebSearchResult_init_Ok_inv in H as (response & _ & -> & _).
  simpl. split; [reflexivity|]. split.
  - apply slice_to_prefix.
  - apply slice_to_len_le.
Qed.

(** C2 (as amended): the full content of a result is the visible text [t]
    of the fetched page cut by [t[:max_content_length]]: a prefix of [t],
    and, when [max_content_length] is not negative, of at most
    [max_content_length] characters and of exactly that many when [t] has
    at least as many. *)
Theorem full_content_is_truncated_page_text ttl lnk mcl msl w r w' :
  WebSearchResult_init ttl lnk mcl msl w = (Ok r, w') →
  ∃ response,
    http (net_log w) (HttpGet lnk) = Ok response ∧
    full_content r = slice_to (page_text response) mcl ∧
    is_prefix (full_content r) (page_text response) ∧
    ((0 ≤ mcl)%Z →
       (len (full_content r) ≤ mcl)%Z ∧
       ((mcl ≤ len (page_text response))%Z → len (full_content r) = mcl)).
Proof.
  intros H. apply WebSearchResult_init_Ok_inv in H as (response & Hget & -> & _).
  exists response. simpl. split; [exact Hget|]. split; [reflexivity|]. split.
  - apply slice_to_prefix.
  - intros Hpos. split.
    + by apply slice_to_len_le.
    + intros Hlen. by apply slice_to_len_exact.
Qed.

(** C7: normalizing a hit twice with the same limits, the page at its link
    answering with the same body both times, succeeds both times with the
    same title, link, full content and summary. *)
Theorem normalization_is_deterministic ttl lnk mcl msl w1 w2 body :
  http (net_log w1) (HttpGet lnk) = Ok body →
  http (net_log w2) (HttpGet lnk) = Ok body →
  ∃ r1 w1' r2 w2',
    WebSearchResult_init ttl lnk mcl msl w1 = (Ok r1, w1') ∧
    WebSearchResult_init ttl lnk mcl msl w2 = (Ok r2, w2') ∧
    title r1 = title r2 ∧ link r1 = link r2 ∧
    full_content r1 = full_content r2 ∧ summary r1 = summary r2.
Proof.
  intros H1 H2. do 4 eexists.
  rewrite !WebSearchResult_init_unfold, H1, H2. simpl.
  repeat split; reflexivity.
Qed.

(** ** metaphor_search *)

(** [metaphor_search], decision by decision. *)
Lemma metaphor_search_unfold q n w :
  metaphor_search q n w =
  let api_key := dotenv (environ w) !! "METAPHOR_API_KEY" in
  if falsy api_key then (Raise (ValueError METAPHOR_API_KEY_not_set), loaded w)
  else
    let key := default "" api_key in
    match http (net_log w) (metaphor_call q n key) with
    | Raise e => (Raise e, posted q n key w)
    | Ok response =>
        match json_loads_opt response with
        | None => (Raise JSONDecodeError, posted q n key w)
        | Some parsed =>
            match getitem parsed "results" with
            | Raise e => (Raise e, posted q n key w)
            | Ok raw_results =>
                match py_iter raw_results with
                | Raise e => (Raise e, posted q n key w)
                | Ok hits =>
                    list_comprehension (result_of_hit "url") hits
                      (posted q n key w)
                end
            end
        end
    end.
Proof.
  unfold metaphor_search, load_dotenv, getenv, requests_post, net_request,
    json_loads, lift, raise, mbind, M_bind; simpl.
  destruct (falsy _); [reflexivity|].
  fold (metaphor_call q n (default "" (dotenv (environ w) !! "METAPHOR_API_KEY"))).
  destruct (http _ _) as [response|e]; [|reflexivity].
  destruct (json_loads_opt response) as [parsed|]; [|reflexivity].
  destruct (getitem parsed "results") as [raw|e]; [|reflexivity].
  destruct (py_iter raw) as [hits|e]; reflexivity.
Qed.

(** With a falsy key the call raises straight after [load_dotenv()]. *)
Lemma metaphor_search_falsy_key q n w :
  falsy (dotenv (environ w) !! "METAPHOR_API_KEY") = true →
  metaphor_search q n w =
  (Raise (ValueError METAPHOR_API_KEY_not_set), loaded w).
Proof. intros H. rewrite metaphor_search_unfold. simpl. by rewrite H. Qed.

Lemma falsy_iff (v : option string) :
  falsy v = true ↔ v = None ∨ v = Some "".
Proof.
  destruct v as [s|]; simpl.
  - rewrite String.eqb_eq. split; [intros ->; by right|].
    intros [?|[= ->]]; done.
  - split; [by left|done].
Qed.

(** C3: when [METAPHOR_API_KEY] is missing from the environment that
    [metaphor_search] reads, it raises its [ValueError] about the missing
    key (the configuration error of the search) and has handed no call to
    the network: the log of calls is the one it started with. *)
Theorem metaphor_search_missing_key_raises_before_network q n w :
  dotenv (environ w) !! "METAPHOR_API_KEY" = None →
  ∃ w',
    metaphor_search q n w =
      (Raise (ValueError METAPHOR_API_KEY_not_set), w') ∧
    net_log w' = net_log w.
Proof.
  intros Hkey. exists (loaded w). split; [|reflexivity].
  apply metaphor_search_falsy_key. by rewrite Hkey.
Qed.

(** C9: an empty [METAPHOR_API_KEY] is treated as a missing one.  On a
    falsy value of [os.getenv] (the falsy ones are [None] and [""]) the
    call raises its [ValueError] and has handed no call to the network,
    and this is the outcome of every call made with the key missing. *)
Theorem metaphor_search_empty_key_is_missing_key q n w :
  falsy (dotenv (environ w) !! "METAPHOR_API_KEY") = true →
  ∃ w',
    metaphor_search q n w =
      (Raise (ValueError METAPHOR_API_KEY_not_set), w') ∧
    net_log w' = net_log w ∧
    ∀ q0 n0 w0,
      dotenv (environ w0) !! "METAPHOR_API_KEY" = None →
      fst (metaphor_search q0 n0 w0) = fst (metaphor_search q n w) ∧
      net_log (snd (metaphor_search q0 n0 w0)) = net_log w0.
Proof.
  intros Hfalsy. exists (loaded w).
  rewrite (metaphor_search_falsy_key q n w Hfalsy).
  split; [reflexivity|]. split; [reflexivity|].
  intros q0 n0 w0 Hnone.
  rewrite metaphor_search_falsy_key by (by rewrite Hnone).
  split; reflexivity.
Qed.

(** C8: with the key present, when the reply to the POST is not a JSON
    document, or is one without a [results] field, [metaphor_search]
    raises (a [JSONDecodeError], a [KeyError] for [results], or a
    [TypeError] when the document is not an object) right after the POST:
    it returns no list. *)
Theorem metaphor_search_bad_reply_raises q n w key response :
  dotenv (environ w) !! "METAPHOR_API_KEY" = Some key →
  key ≠ "" →
  http (net_log w) (metaphor_call q n key) = Ok response →
  (json_loads_opt response = None ∨
   ∃ parsed, json_loads_opt response = Some parsed ∧
             ¬ has_field parsed "results") →
  ∃ e,
    metaphor_search q n w = (Raise e, posted q n key w) ∧
    (e = JSONDecodeError ∨ e = KeyError "results" ∨ e = TypeError).
Proof.
  intros Hkey Hne Hpost Hbad.
  rewrite metaphor_search_unfold, Hkey. simpl.
  apply String.eqb_neq in Hne. rewrite Hne, Hpost.
  destruct Hbad as [->|(parsed & -> & Hlacks)]; [eauto|].
  destruct parsed as [| | | | |items|entries]; simpl; eauto.
  destruct (dict_get entries "results") as [x|] eqn:Hget; [|eauto].
  exfalso. apply Hlacks. by exists entries, x.
Qed.

(** ** The list comprehensions *)

Lemma after_fetches_nil w : after_fetches w [] = w.
Proof. destruct w. unfold after_fetches. simpl. by rewrite app_nil_r. Qed.

Lemma after_fetches_cons w r rs :
  after_fetches w (r :: rs) = after_fetches (fetched (link r) w) rs.
Proof. unfold after_fetches, fetched. simpl. by rewrite <- app_assoc. Qed.

(** Normalizing one hit: its two fields are read, then its page fetched. *)
Lemma result_of_hit_Ok_inv key hit w r w' :
  result_of_hit key hit w = (Ok r, w') →
  getitem hit "title" = Ok (title r) ∧
  getitem hit key = Ok (link r) ∧
  w' = fetched (link r) w.
Proof.
  unfold result_of_hit. intros H.
  apply bind_Ok_inv in H as (t & w1 & Ht & H).
  apply lift_Ok_inv in Ht as [Ht ->].
  apply bind_Ok_inv in H as (u & w2 & Hu & H).
  apply lift_Ok_inv in Hu as [Hu ->].
  apply WebSearchResult_init_Ok_inv in H as (response & _ & -> & ->).
  by simpl.
Qed.

(** A comprehension that succeeds has normalized the hits one after the
    other: the i-th result is the i-th hit, normalized in the world left
    by the hits before it. *)
Lemma list_comprehension_in_order key hits : ∀ w rs w',
  list_comprehension (result_of_hit key) hits w = (Ok rs, w') →
  length rs = length hits ∧
  w' = after_fetches w rs ∧
  ∀ i hit, hits !! i = Some hit →
    ∃ r, rs !! i = Some r ∧
         result_of_hit key hit (after_fetches w (take i rs)) =
           (Ok r, after_fetches w (take (S i) rs)).
Proof.
  induction hits as [|h hits IH]; intros w rs w' H.
  - injection H as <- <-. rewrite after_fetches_nil. by repeat split.
  - simpl in H.
    apply bind_Ok_inv in H as (r & w1 & Hr & H).
    apply bind_Ok_inv in H as (rs' & w2 & Hrs & H).
    injection H as <- <-.
    pose proof (result_of_hit_Ok_inv _ _ _ _ _ Hr) as (_ & _ & ->).
    destruct (IH _ _ _ Hrs) as (Hlen & -> & Hith).
    split; [simpl; by rewrite Hlen|].
    split; [by rewrite after_fetches_cons|].
    intros [|i] hit Hhit; simpl in Hhit.
    + injection Hhit as <-. exists r. split; [reflexivity|].
      simpl. by rewrite after_fetches_nil, after_fetches_cons,
        after_fetches_nil.
    + destruct (Hith i hit Hhit) as (ri & Hri & Hnorm).
      exists ri. split; [exact Hri|].
      simpl. by rewrite !after_fetches_cons.
Qed.

(** Whatever a comprehension does, it only adds to the log. *)
Lemma list_comprehension_log key hits : ∀ w,
  ∃ rest,
    net_log (snd (list_comprehension (result_of_hit key) hits w)) =
    (net_log w ++ rest)%list.
Proof.
  induction hits as [|h hits IH]; intros w; simpl.
  - exists []. by rewrite app_nil_r.
  - unfold mbind, M_bind.
    destruct (result_of_hit key h w) as [[r|e] w1] eqn:Hr.
    + apply result_of_hit_Ok_inv in Hr as (_ & _ & ->).
      destruct (IH (fetched (link r) w)) as [rest Hrest].
      destruct (list_comprehension _ hits _) as [[rs|e] w2]; simpl in *;
        rewrite Hrest, <- app_assoc; eauto.
    + revert Hr. unfold result_of_hit, lift, mbind, M_bind.
      destruct (getitem h "title") as [t|e1];
        [|intros [= _ <-]; exists []; simpl; by rewrite app_nil_r].
      destruct (getitem h key) as [u|e2];
        [|intros [= _ <-]; exists []; simpl; by rewrite app_nil_r].
      rewrite WebSearchResult_init_unfold.
      destruct (http _ _); [discriminate|]. intros [= _ <-]. simpl. eauto.
Qed.

Lemma metaphor_search_backend_returned q n w key hits :
  backend_returned q n w key hits →
  metaphor_search q n w =
  list_comprehension (result_of_hit "url") hits (posted q n key w).
Proof.
  intros (Hkey & Hne & response & parsed & raw & Hpost & Hjson & Hres & Hit).
  rewrite metaphor_search_unfold, Hkey. simpl.
  apply String.eqb_neq in Hne. by rewrite Hne, Hpost, Hjson, Hres, Hit.
Qed.

(** ** Serialization *)

Lemma str_length_app (a b : string) :
  String.length (a ++ b) = String.length a + String.length b.
Proof.
  induction a as [|c a IH]; [reflexivity|].
  change (S (String.length (a ++ b)) = S (String.length a) + String.length b).
  by rewrite IH.
Qed.

Lemma join_cons_cons (sep b b' : string) (bs : list string) :
  join sep (b :: b' :: bs) = b ++ sep ++ join sep (b' :: bs).
Proof. reflexivity. Qed.

(** Between [N > 0] blocks there are exactly [N - 1] separators. *)
Lemma join_length (sep : string) (blocks : list string) :
  String.length (join sep blocks) =
  sum_list (String.length <$> blocks) +
  String.length sep * (length blocks - 1).
Proof.
  destruct blocks as [|b bs]; [simpl; lia|].
  revert b; induction bs as [|b' bs IH]; intros b.
  - simpl. lia.
  - rewrite join_cons_cons, !str_length_app, IH. simpl. lia.
Qed.

(** *** Reading the blocks back *)

Lemma str_app_nil_l (s : string) : "" ++ s = s.
Proof. reflexivity. Qed.

Lemma str_app_cons (c : ascii) (a b : string) :
  String c a ++ b = String c (a ++ b).
Proof. reflexivity. Qed.

Lemma paragraphs_cons_cons (c c' : ascii) (rest : string) :
  paragraphs (String c (String c' rest)) =
  if is_nl c && is_nl c' then "" :: paragraphs rest
  else match paragraphs (String c' rest) with
       | p :: ps => String c p :: ps
       | [] => [String c ""]
       end.
Proof. reflexivity. Qed.

Lemma solid_cons (c : ascii) (rest : string) :
  solid (String c rest) = true →
  solid rest = true ∧
  (is_nl c = true → ∃ c' rest', rest = String c' rest' ∧ is_nl c' = false).
Proof.
  simpl. destruct (is_nl c).
  - destruct rest as [|c' rest']; [discriminate|].
    intros [Hc' Hrest]%andb_prop. split; [exact Hrest|].
    intros _. exists c', rest'. split; [reflexivity|].
    by destruct (is_nl c').
  - intros H. split; [exact H|discriminate].
Qed.

(** A text without a blank line is one paragraph. *)
Lemma paragraphs_solid (s : string) : solid s = true → paragraphs s = [s].
Proof.
  induction s as [|c s IH]; [reflexivity|]. intros Hs.
  apply solid_cons in Hs as [Hs Hc].
  destruct s as [|c' s']; [reflexivity|].
  rewrite paragraphs_cons_cons, (IH Hs).
  destruct (is_nl c) eqn:Ec; [|reflexivity].
  destruct (Hc eq_refl) as (c2 & s2 & [= <- <-] & ->). reflexivity.
Qed.

(** A solid text followed by a blank line is the first paragraph. *)
Lemma paragraphs_app_blank_line (b rest : string) :
  solid b = true →
  paragraphs (b ++ (nl ++ nl) ++ rest) = b :: paragraphs rest.
Proof.
  change ((nl ++ nl) ++ rest)
    with (String (ascii_of_nat 10) (String (ascii_of_nat 10) rest)).
  induction b as [|c b IH]; intros Hb.
  - rewrite str_app_nil_l, paragraphs_cons_cons. reflexivity.
  - apply solid_cons in Hb as [Hb Hc]. rewrite str_app_cons.
    destruct b as [|c' b'].
    + rewrite str_app_nil_l, paragraphs_cons_cons.
      destruct (is_nl c) eqn:Ec.
      * destruct (Hc eq_refl) as (? & ? & [=] & _).
      * rewrite (paragraphs_cons_cons (ascii_of_nat 10)). reflexivity.
    + specialize (IH Hb). rewrite str_app_cons in IH |- *.
      rewrite paragraphs_cons_cons, IH.
      destruct (is_nl c) eqn:Ec; [|reflexivity].
      destruct (Hc eq_refl) as (c2 & s2 & [= <- <-] & ->). reflexivity.
Qed.

(** Solid blocks joined by blank lines are read back as they were. *)
Lemma paragraphs_join (b : string) (bs : list string) :
  Forall (fun x => solid x = true) (b :: bs) →
  paragraphs (join (nl ++ nl) (b :: bs)) = b :: bs.
Proof.
  revert b; induction bs as [|b' bs IH]; intros b Hall.
  - apply paragraphs_solid. by inversion Hall.
  - rewrite join_cons_cons.
    inversion Hall as [|? ? Hb Hrest]; subst.
    rewrite (paragraphs_app_blank_line _ _ Hb). f_equal. by apply IH.
Qed.

Lemma solid_app (a b : string) :
  solid a = true → solid b = true → solid (a ++ b) = true.
Proof.
  intros Ha Hb. induction a as [|c a IH]; [exact Hb|].
  apply solid_cons in Ha as [Ha Hc]. rewrite str_app_cons.
  specialize (IH Ha). simpl. destruct (is_nl c) eqn:Ec; [|exact IH].
  destruct (Hc eq_refl) as (c' & a' & -> & Hc').
  rewrite str_app_cons in IH |- *. by rewrite Hc', IH.
Qed.

(** A label that begins a line, after a newline, in front of a solid
    text. *)
Lemma solid_line (c : ascii) (label s : string) :
  is_nl c = false → solid (String c label) = true → solid s = true →
  solid (nl ++ String c label ++ s) = true.
Proof.
  intros Hc Hlabel Hs.
  pose proof (solid_app _ _ Hlabel Hs) as Hrest.
  rewrite str_app_cons in Hrest |- *.
  change (nl ++ String c (label ++ s))
    with (String (ascii_of_nat 10) (String c (label ++ s))).
  change (solid (String (ascii_of_nat 10) (String c (label ++ s))))
    with (negb (is_nl c) && solid (String c (label ++ s))).
  by rewrite Hc, Hrest.
Qed.

Lemma spec_block_solid r : solid_fields r → solid (spec_block r) = true.
Proof.
  intros (Ht & Hl & Hs). unfold spec_block.
  apply solid_app; [reflexivity|].
  apply solid_app; [exact Ht|].
  apply (solid_line _ "ink: "); [reflexivity..|].
  apply solid_app; [exact Hl|].
  apply (solid_line _ "ummary: "); [reflexivity..|exact Hs].
Qed.

(** The text of [__str__] is the block of the specification. *)
Lemma WebSearchResult_str_spec_block r : WebSearchResult_str r = spec_block r.
Proof.
  unfold WebSearchResult_str, spec_block, py_format, inserted.
  reflexivity.
Qed.

(** C5 (as amended): when the search returns the N results [rs], [handle]
    returns the N blocks ["Title: {title}\nLink: {link}\nSummary:
    {summary}"], one per result and in the order of [rs], joined by two
    newlines; and when no title, link or summary holds a blank line or
    ends with a newline, a reader who cuts the text at its blank lines
    finds exactly these N blocks. *)
Theorem handle_returns_the_joined_blocks self w rs w' :
  metaphor_search (query self) (num_results self) w = (Ok rs, w') →
  ∃ blocks,
    handle self w = (Ok (join (nl ++ nl) blocks), w') ∧
    length blocks = length rs ∧
    (∀ i r, rs !! i = Some r → blocks !! i = Some (spec_block r)) ∧
    (Forall solid_fields rs → blocks_of (join (nl ++ nl) blocks) = blocks).
Proof.
  intros Hsearch. exists (spec_block <$> rs).
  split; [|split; [|split]].
  - unfold handle. rewrite (bind_Ok _ _ _ _ _ Hsearch).
    assert (Heq : map WebSearchResult_str rs = spec_block <$> rs)
      by (apply map_ext; intros r; apply WebSearchResult_str_spec_block).
    by rewrite Heq.
  - by rewrite length_fmap.
  - intros i r Hr. by rewrite list_lookup_fmap, Hr.
  - intros Hsolid. destruct rs as [|r rs]; [reflexivity|].
    assert (Hall :
      Forall (fun x => solid x = true) (spec_block <$> (r :: rs))).
    { apply Forall_fmap. eapply Forall_impl; [exact Hsolid|].
      intros x Hx. by apply spec_block_solid. }
    rewrite fmap_cons in Hall |- *.
    transitivity
      (paragraphs (join (nl ++ nl) (spec_block r :: (spec_block <$> rs)))).
    + by destruct (spec_block <$> rs).
    + by apply paragraphs_join.
Qed.

(** C6: when the backend returns the raw hits [hits] and [handle]
    succeeds, its text is made of as many blocks as there are hits, and
    the i-th block is the serialization of the i-th hit: of the result
    with that hit's title and url, normalized after the hits before it. *)
Theorem handle_keeps_backend_order self w key hits out w' :
  backend_returned (query self) (num_results self) w key hits →
  handle self w = (Ok out, w') →
  ∃ blocks,
    out = join (nl ++ nl) blocks ∧
    length blocks = length hits ∧
    ∀ i hit, hits !! i = Some hit →
      ∃ r before after,
        blocks !! i = Some (WebSearchResult_str r) ∧
        getitem hit "title" = Ok (title r) ∧
        getitem hit "url" = Ok (link r) ∧
        result_of_hit "url" hit before = (Ok r, after) ∧
        net_log after = (net_log before ++ [HttpGet (link r)])%list ∧
        ∃ rs, length rs = i ∧
              before = after_fetches
                         (posted (query self) (num_results self) key w) rs.
Proof.
  intros Hbackend Hhandle. unfold handle in Hhandle.
  apply bind_Ok_inv in Hhandle as (rs & w1 & Hsearch & Hret).
  injection Hret as <- <-.
  rewrite (metaphor_search_backend_returned _ _ _ _ _ Hbackend) in Hsearch.
  apply list_comprehension_in_order in Hsearch as (Hlen & -> & Hith).
  exists (WebSearchResult_str <$> rs).
  split; [reflexivity|]. split; [by rewrite length_fmap|].
  intros i hit Hhit.
  destruct (Hith i hit Hhit) as (r & Hr & Hnorm).
  pose proof (result_of_hit_Ok_inv _ _ _ _ _ Hnorm) as (Ht & Hu & Hw).
  eexists r, _, _. split; [by rewrite list_lookup_fmap, Hr|].
  split; [exact Ht|]. split; [exact Hu|]. split; [exact Hnorm|].
  split; [by rewrite Hw|].
  exists (take i rs). split; [|reflexivity].
  apply length_take_le. apply lookup_lt_Some in Hr. lia.
Qed.

(** ** google_search *)

(** [google_search], decision by decision: nothing is decided before the
    client is called. *)
Lemma google_search_unfold q n w :
  google_search q n w =
  match google (net_log w) (google_call q n w) with
  | Raise e => (Raise e, called q n w)
  | Ok reply =>
      match getitem reply "items" with
      | Raise e => (Raise e, called q n w)
      | Ok raw_results =>
          match py_iter raw_results with
          | Raise e => (Raise e, called q n w)
          | Ok hits =>
              list_comprehension (result_of_hit "link") hits (called q n w)
          end
      end
  end.
Proof.
  unfold google_search, load_dotenv, getenv, net_request, lift, mbind,
    M_bind; simpl.
  fold (google_call q n w).
  destruct (google _ _) as [reply|e]; [|reflexivity].
  destruct (getitem reply "items") as [raw|e]; [|reflexivity].
  destruct (py_iter raw) as [hits|e]; reflexivity.
Qed.

(** C4 (what the code does): [google_search] looks at neither credential.
    Whatever [GOOGLE_API_KEY] and [GOOGLE_CSE_ID] are, set or not, the
    first thing it does after [load_dotenv()] is to hand the call, with
    the two values as they are, to the Google client; when the client
    raises, that exception is the outcome. *)
Theorem google_search_calls_client_whatever_the_credentials q n w :
  (∃ rest,
     net_log (snd (google_search q n w)) =
     (net_log w ++ google_call q n w :: rest)%list) ∧
  ∀ e, google (net_log w) (google_call q n w) = Raise e →
       google_search q n w = (Raise e, called q n w).
Proof.
  rewrite google_search_unfold. split.
  - destruct (google _ _) as [reply|e]; [|by exists []].
    destruct (getitem reply "items") as [raw|e]; [|by exists []].
    destruct (py_iter raw) as [hits|e]; [|by exists []].
    destruct (list_comprehension_log "link" hits (called q n w))
      as [rest Hrest].
    exists rest. rewrite Hrest. simpl. by rewrite <- app_assoc.
  - by intros e ->.
Qed.

(** ** to_dict *)

(** C10: [to_dict] returns a dict with the four keys [title], [link],
    [summary] and [full_content] and no other, each holding the attribute
    of that name unchanged; it holds the full content, which the text of
    [__str__] does not depend on. *)
Theorem to_dict_holds_the_four_attributes r :
  dom (to_dict r) =
    ({["title"; "link"; "summary"; "full_content"]} : gset string) ∧
  size (to_dict r) = 4 ∧
  to_dict r !! "title" = Some (title r) ∧
  to_dict r !! "link" = Some (link r) ∧
  to_dict r !! "summary" = Some (PStr (summary r)) ∧
  to_dict r !! "full_content" = Some (PStr (full_content r)) ∧
  ∀ content,
    WebSearchResult_str (set_full_content content r) = WebSearchResult_str r.
Proof.
  unfold to_dict. split.
  - rewrite !dom_insert_L, dom_empty_L. set_solver.
  - split.
    + rewrite !map_size_insert_None, map_size_empty; [done|..];
        by simplify_map_eq.
    + repeat split; by simplify_map_eq.
Qed.

(** ** More on slicing *)

Lemma str_take_all (n : nat) (s : string) :
  (String.length s ≤ n)%nat → str_take n s = s.
Proof.
  revert n; induction s as [|c s IH]; intros [|n] H; simpl in *;
    try reflexivity; try lia.
  f_equal. apply IH. lia.
Qed.

Lemma str_take_take (m n : nat) (s : string) :
  str_take m (str_take n s) = str_take (Nat.min m n) s.
Proof.
  revert n s; induction m as [|m IH]; intros [|n] [|c s]; simpl;
    try reflexivity.
  f_equal. apply IH.
Qed.

(** With a bound that is not negative, [s[:stop]] is the first [stop]
    characters. *)
Lemma slice_to_nonneg (s : string) (stop : Z) :
  (0 ≤ stop)%Z → slice_to s stop = str_take (Z.to_nat stop) s.
Proof.
  intros H. unfold slice_to, len.
  destruct (Z.ltb_spec stop 0) as [?|_]; [lia|].
  destruct (Z.ltb_spec stop 0) as [?|_]; [lia|].
  destruct (Z.ltb_spec (Z.of_nat (String.length s)) stop) as [Hlt|_];
    [|reflexivity].
  rewrite !str_take_all; [reflexivity|lia..].
Qed.

Lemma slice_to_all (s : string) (stop : Z) :
  (len s ≤ stop)%Z → slice_to s stop = s.
Proof.
  intros H. unfold len in H.
  rewrite slice_to_nonneg by lia. apply str_take_all. lia.
Qed.

Lemma slice_to_slice_to (s : string) (a b : Z) :
  (0 ≤ a)%Z → (0 ≤ b)%Z →
  slice_to (slice_to s a) b = slice_to s (Z.min a b).
Proof.
  intros Ha Hb. rewrite !slice_to_nonneg by lia.
  rewrite str_take_take. f_equal. lia.
Qed.

(** ** More on WebSearchResult *)

(** X1: with limits that are not negative, the summary of a constructed
    result is cut from the page text itself, by the smaller of the two
    limits: it is [t[:min(max_content_length, max_summary_length)]] for the
    visible text [t] of the page, a prefix of [t], and of
    [min(len(t), max_content_length, max_summary_length)] characters. *)
Theorem summary_is_slice_of_page_text ttl lnk mcl msl w r w' :
  WebSearchResult_init ttl lnk mcl msl w = (Ok r, w') →
  (0 ≤ mcl)%Z → (0 ≤ msl)%Z →
  ∃ response,
    http (net_log w) (HttpGet lnk) = Ok response ∧
    summary r = slice_to (page_text response) (Z.min mcl msl) ∧
    is_prefix (summary r) (page_text response) ∧
    len (summary r) = Z.min (len (page_text response)) (Z.min mcl msl).
Proof.
  intros H Hmcl Hmsl.
  apply WebSearchResult_init_Ok_inv in H as (response & Hget & -> & _).
  exists response. simpl. split; [exact Hget|].
  rewrite slice_to_slice_to by assumption.
  split; [reflexivity|]. split; [apply slice_to_prefix|].
  rewrite slice_to_len.
  destruct (Z.ltb_spec (Z.min mcl msl) 0); lia.
Qed.

(** X2: a page whose visible text fits both limits is kept whole: the
    constructor succeeds with the text as full content and as summary. *)
Theorem short_page_is_kept_whole ttl lnk mcl msl w response :
  http (net_log w) (HttpGet lnk) = Ok response →
  (len (page_text response) ≤ mcl)%Z →
  (len (page_text response) ≤ msl)%Z →
  WebSearchResult_init ttl lnk mcl msl w =
  (Ok (mkWebSearchResult ttl lnk mcl msl (page_text response)
         (page_text response)),
   fetched lnk w).
Proof.
  intros Hget Hmcl Hmsl. rewrite WebSearchResult_init_unfold, Hget. simpl.
  by rewrite (slice_to_all _ mcl Hmcl), (slice_to_all _ msl Hmsl).
Qed.

(** X3: whatever the two limits, negative ones included, the summary of a
    constructed result is never longer than its full content, which is
    never longer than the visible text of the page; and a negative limit
    [-k] cuts the last [k] characters off instead of keeping the first. *)
Theorem lengths_of_constructed_result ttl lnk mcl msl w r w' :
  WebSearchResult_init ttl lnk mcl msl w = (Ok r, w') →
  ∃ response,
    http (net_log w) (HttpGet lnk) = Ok response ∧
    (0 ≤ len (summary r) ≤ len (full_content r))%Z ∧
    (len (full_content r) ≤ len (page_text response))%Z ∧
    ((mcl < 0)%Z →
       len (full_content r) = Z.max 0 (len (page_text response) + mcl)) ∧
    ((msl < 0)%Z →
       len (summary r) = Z.max 0 (len (full_content r) + msl)).
Proof.
  intros H.
  apply WebSearchResult_init_Ok_inv in H as (response & Hget & -> & _).
  exists response. simpl. split; [exact Hget|].
  rewrite !slice_to_len. unfold len.
  repeat split;
    repeat match goal with
           | |- context [(?a <? ?b)%Z] => destruct (Z.ltb_spec a b)
           end; lia.
Qed.

(** X4: the two getters of a constructed result recompute what it stores.
    [get_summary()] returns the stored summary; [get_full_content()] asks
    for the page again on every call (nothing is cached), and returns the
    stored full content whenever the page answers as it did. *)
Theorem getters_of_constructed_result ttl lnk mcl msl w r w' :
  WebSearchResult_init ttl lnk mcl msl w = (Ok r, w') →
  get_summary r = summary r ∧
  ∀ w2,
    net_log (snd (get_full_content r w2)) =
      (net_log w2 ++ [HttpGet lnk])%list ∧
    (http (net_log w2) (HttpGet lnk) = http (net_log w) (HttpGet lnk) →
     fst (get_full_content r w2) = Ok (full_content r)).
Proof.
  intros H.
  apply WebSearchResult_init_Ok_inv in H as (response & Hget & -> & _).
  split; [reflexivity|]. intros w2.
  unfold get_full_content, requests_get, net_request, mbind, M_bind; simpl.
  split.
  - destruct (http (net_log w2) (HttpGet lnk)); reflexivity.
  - intros ->. by rewrite Hget.
Qed.

(** X5: [to_dict] exports the title, the link, the summary and the full
    content and nothing else: two results have the same dict exactly when
    they agree on these four attributes, whatever their limits. *)
Theorem to_dict_determines_the_four_attributes r1 r2 :
  to_dict r1 = to_dict r2 ↔
  title r1 = title r2 ∧ link r1 = link r2 ∧
  summary r1 = summary r2 ∧ full_content r1 = full_content r2.
Proof.
  split.
  - intros H.
    pose proof (f_equal (λ d, d !! "title") H) as Ht.
    pose proof (f_equal (λ d, d !! "link") H) as Hl.
    pose proof (f_equal (λ d, d !! "summary") H) as Hs.
    pose proof (f_equal (λ d, d !! "full_content") H) as Hc.
    unfold to_dict in Ht, Hl, Hs, Hc. simplify_map_eq. done.
  - unfold to_dict. by intros (-> & -> & -> & ->).
Qed.

(** ** More on the list comprehensions *)

Lemma result_of_hit_unfold key hit w :
  result_of_hit key hit w =
  match getitem hit "title" with
  | Raise e => (Raise e, w)
  | Ok t =>
      match getitem hit key with
      | Raise e => (Raise e, w)
      | Ok u => WebSearchResult_init t u 3500 300 w
      end
  end.
Proof.
  unfold result_of_hit, lift, mbind, M_bind.
  destruct (getitem hit "title"); [|reflexivity].
  destruct (getitem hit key); reflexivity.
Qed.

(** Normalizing one hit asks for at most one page and leaves the
    environment alone. *)
Lemma result_of_hit_effects key hit w :
  environ (snd (result_of_hit key hit w)) = environ w ∧
  (net_log (snd (result_of_hit key hit w)) = net_log w ∨
   ∃ u, net_log (snd (result_of_hit key hit w)) =
        (net_log w ++ [HttpGet u])%list).
Proof.
  rewrite result_of_hit_unfold.
  destruct (getitem hit "title") as [t|e]; [|by split; [|left]].
  destruct (getitem hit key) as [u|e]; [|by split; [|left]].
  rewrite WebSearchResult_init_unfold.
  destruct (http _ _); (split; [reflexivity|right; by exists u]).
Qed.

(** A comprehension stops at the first element that raises. *)
Lemma list_comprehension_stops {A B : Type} (f : A → M B) xs y zs :
  ∀ w ys w1 e w2,
    list_comprehension f xs w = (Ok ys, w1) →
    f y w1 = (Raise e, w2) →
    list_comprehension f (xs ++ y :: zs) w = (Raise e, w2).
Proof.
  induction xs as [|x xs IH]; intros w ys w1 e w2 Hxs Hy; simpl in *.
  - injection Hxs as <- <-. by rewrite (bind_Raise_stop _ _ _ _ _ Hy).
  - apply bind_Ok_inv in Hxs as (b & wb & Hb & Hxs).
    apply bind_Ok_inv in Hxs as (bs & wbs & Hbs & Hret).
    injection Hret as <- <-.
    rewrite (bind_Ok _ _ _ _ _ Hb).
    by rewrite (bind_Raise_stop _ _ _ _ _ (IH _ _ _ _ _ Hbs Hy)).
Qed.

(** Whatever a comprehension over raw hits does, it leaves the environment
    alone and only asks for pages, at most one per hit. *)
Lemma list_comprehension_effects key hits : ∀ w,
  environ (snd (list_comprehension (result_of_hit key) hits w)) =
    environ w ∧
  ∃ rest,
    net_log (snd (list_comprehension (result_of_hit key) hits w)) =
      (net_log w ++ rest)%list ∧
    Forall is_get rest ∧ (length rest ≤ length hits)%nat.
Proof.
  induction hits as [|h hits IH]; intros w; simpl.
  - split; [reflexivity|]. exists []. by rewrite app_nil_r.
  - destruct (result_of_hit_effects key h w) as [Henv Hlog].
    unfold mbind, M_bind.
    destruct (result_of_hit key h w) as [[r|e] w1]; simpl in *.
    + destruct (IH w1) as (Henv1 & rest & Hrest & Hgets & Hlen).
      assert (Hgoal :
        environ (snd (list_comprehension (result_of_hit key) hits w1)) =
          environ w ∧
        ∃ rest',
          net_log (snd (list_comprehension (result_of_hit key) hits w1)) =
            (net_log w ++ rest')%list ∧
          Forall is_get rest' ∧ (length rest' ≤ S (length hits))%nat).
      { rewrite Henv1, Hrest. split; [exact Henv|].
        destruct Hlog as [->|[u ->]].
        - exists rest. split; [reflexivity|]. split; [exact Hgets|lia].
        - exists (HttpGet u :: rest). rewrite <- app_assoc.
          split; [reflexivity|]. split; [|simpl; lia].
          constructor; [by exists u|exact Hgets]. }
      by destruct (list_comprehension (result_of_hit key) hits w1)
        as [[rs|e] w2].
    + split; [exact Henv|]. destruct Hlog as [->|[u ->]].
      * exists []. rewrite app_nil_r. split; [reflexivity|].
        split; [constructor|simpl; lia].
      * exists [HttpGet u]. split; [reflexivity|].
        split; [repeat constructor; by exists u|simpl; lia].
Qed.

(** The results of a comprehension that succeeds are built with the limits
    3500 and 300. *)
Lemma list_comprehension_limits key hits : ∀ w rs w',
  list_comprehension (result_of_hit key) hits w = (Ok rs, w') →
  Forall within_default_limits rs.
Proof.
  induction hits as [|h hits IH]; intros w rs w' H; simpl in H.
  - injection H as <- <-. constructor.
  - apply bind_Ok_inv in H as (r & w1 & Hr & H).
    apply bind_Ok_inv in H as (rs' & w2 & Hrs & H).
    injection H as <- <-.
    constructor; [|by eapply IH].
    rewrite result_of_hit_unfold in Hr.
    destruct (getitem h "title") as [t|]; [|discriminate].
    destruct (getitem h key) as [u|]; [|discriminate].
    apply WebSearchResult_init_Ok_inv in Hr as (response & _ & -> & _).
    unfold within_default_limits; simpl.
    split; [reflexivity|]. split; [reflexivity|].
    split; [by apply slice_to_len_le|].
    split; [by apply slice_to_len_le|apply slice_to_prefix].
Qed.

(** What a successful [metaphor_search] went through. *)
Lemma metaphor_search_Ok_inv q n w rs w' :
  metaphor_search q n w = (Ok rs, w') →
  ∃ key hits,
    backend_returned q n w key hits ∧
    list_comprehension (result_of_hit "url") hits (posted q n key w) =
      (Ok rs, w').
Proof.
  rewrite metaphor_search_unfold. simpl.
  destruct (dotenv (environ w) !! "METAPHOR_API_KEY") as [key|] eqn:Hkey;
    simpl; [|discriminate].
  destruct (String.eqb_spec key "") as [->|Hne]; [discriminate|].
  destruct (http _ _) as [response|] eqn:Hpost; [|discriminate].
  destruct (json_loads_opt response) as [parsed|] eqn:Hjson; [|discriminate].
  destruct (getitem parsed "results") as [raw|] eqn:Hres; [|discriminate].
  destruct (py_iter raw) as [hits|] eqn:Hit; [|discriminate].
  intros H. exists key, hits. split; [|exact H].
  split; [exact Hkey|]. split; [exact Hne|]. by exists response, parsed, raw.
Qed.

(** What a successful [google_search] went through. *)
Lemma google_search_Ok_inv q n w rs w' :
  google_search q n w = (Ok rs, w') →
  ∃ reply raw hits,
    google (net_log w) (google_call q n w) = Ok reply ∧
    getitem reply "items" = Ok raw ∧
    py_iter raw = Ok hits ∧
    list_comprehension (result_of_hit "link") hits (called q n w) =
      (Ok rs, w').
Proof.
  rewrite google_search_unfold.
  destruct (google _ _) as [reply|] eqn:Hcall; [|discriminate].
  destruct (getitem reply "items") as [raw|] eqn:Hitems; [|discriminate].
  destruct (py_iter raw) as [hits|] eqn:Hit; [|discriminate].
  intros H. by exists reply, raw, hits.
Qed.

Lemma getitem_without_field (v : pyval) (key : string) :
  ¬ has_field v key →
  getitem v key = Raise (KeyError key) ∨ getitem v key = Raise TypeError.
Proof.
  intros Hlacks. destruct v as [| | | | | |entries]; simpl; auto.
  destruct (dict_get entries key) as [x|] eqn:Hget; [|auto].
  exfalso. apply Hlacks. by exists entries, x.
Qed.

(** ** More on the two searches *)

(** X6: every result that [metaphor_search] or [google_search] returns is
    built with the limits 3500 and 300: its full content has at most 3500
    characters, its summary at most 300, and the summary is a prefix of
    the full content. *)
Theorem searches_return_results_within_default_limits q n w rs w' :
  metaphor_search q n w = (Ok rs, w') ∨ google_search q n w = (Ok rs, w') →
  Forall within_default_limits rs.
Proof.
  intros [H|H].
  - apply metaphor_search_Ok_inv in H as (key & hits & _ & H).
    by eapply list_comprehension_limits.
  - apply google_search_Ok_inv in H as (reply & raw & hits & _ & _ & _ & H).
    by eapply list_comprehension_limits.
Qed.

(** X7: a [metaphor_search] that returns N results has made exactly N + 1
    calls: one POST, carrying the key of the environment, then one GET per
    result, in the order of the results; the environment is the one
    [load_dotenv()] left. *)
Theorem metaphor_search_network_calls q n w rs w' :
  metaphor_search q n w = (Ok rs, w') →
  ∃ key,
    dotenv (environ w) !! "METAPHOR_API_KEY" = Some key ∧ key ≠ "" ∧
    environ w' = dotenv (environ w) ∧
    net_log w' =
      (net_log w ++
       metaphor_call q n key :: map (fun r => HttpGet (link r)) rs)%list.
Proof.
  intros H. apply metaphor_search_Ok_inv in H as (key & hits & Hb & H).
  apply list_comprehension_in_order in H as (_ & -> & _).
  destruct Hb as (Hkey & Hne & _).
  exists key. split; [exact Hkey|]. split; [exact Hne|].
  split; [reflexivity|]. simpl. by rewrite <- app_assoc.
Qed.

(** X8: [metaphor_search] stops at the first hit that cannot be
    normalized.  When the hits before it were normalized and this one
    raises (a field is missing, or its page cannot be fetched), the search
    raises that exception and returns no result; the pages of the hits
    after it are not asked for: the log holds the POST, one GET per hit
    normalized before, and at most the GET of the failing hit. *)
Theorem metaphor_search_stops_at_first_failing_hit
    q n w key hits1 hit hits2 rs1 w1 e w2 :
  backend_returned q n w key (hits1 ++ hit :: hits2) →
  list_comprehension (result_of_hit "url") hits1 (posted q n key w) =
    (Ok rs1, w1) →
  result_of_hit "url" hit w1 = (Raise e, w2) →
  metaphor_search q n w = (Raise e, w2) ∧
  ∃ last,
    net_log w2 =
      (net_log w ++
       metaphor_call q n key ::
       map (fun r => HttpGet (link r)) rs1 ++ last)%list ∧
    (length last ≤ 1)%nat.
Proof.
  intros Hb H1 Hhit. split.
  - rewrite (metaphor_search_backend_returned _ _ _ _ _ Hb).
    by eapply list_comprehension_stops.
  - apply list_comprehension_in_order in H1 as (_ & -> & _).
    destruct (result_of_hit_effects "url" hit
                (after_fetches (posted q n key w) rs1)) as [_ Hlog].
    rewrite Hhit in Hlog. simpl in Hlog.
    destruct Hlog as [->|[u ->]].
    + exists []. rewrite app_nil_r, <- app_assoc. split; [reflexivity|].
      simpl. lia.
    + exists [HttpGet u]. rewrite <- !app_assoc. split; [reflexivity|].
      simpl. lia.
Qed.

(** X9: a hit that lacks its title or its link (or is not a dict at all)
    raises before its page is asked for: a [KeyError] for the missing key,
    the title being looked up first, or a [TypeError]; the world is left
    as it was. *)
Theorem malformed_hit_raises_before_fetch key hit w :
  ¬ has_field hit "title" ∨ ¬ has_field hit key →
  ∃ e,
    result_of_hit key hit w = (Raise e, w) ∧
    (e = KeyError "title" ∨ e = KeyError key ∨ e = TypeError) ∧
    (¬ has_field hit "title" → e = KeyError "title" ∨ e = TypeError).
Proof.
  intros Hbad. rewrite result_of_hit_unfold.
  destruct (getitem hit "title") as [t|e] eqn:Ht.
  - assert (Htitle : has_field hit "title").
    { destruct hit as [| | | | | |entries]; try discriminate.
      simpl in Ht. destruct (dict_get entries "title") as [x|] eqn:Hget;
        [|discriminate]. by exists entries, x. }
    destruct Hbad as [Hno|Hno]; [done|].
    destruct (getitem_without_field hit key Hno) as [->| ->];
      eexists; (split; [reflexivity|]); split; auto; done.
  - destruct (getitem hit "title") as [|e'] eqn:Ht'; [discriminate|].
    injection Ht as <-.
    assert (He : e' = KeyError "title" ∨ e' = TypeError).
    { destruct hit as [| | | | | |entries]; simpl in Ht';
        try (injection Ht' as <-; by right).
      destruct (dict_get entries "title"); [discriminate|].
      injection Ht' as <-. by left. }
    exists e'. split; [reflexivity|]. split; [|done].
    destruct He as [->| ->]; auto.
Qed.

(** X10: whatever happens after it, a [metaphor_search] that finds a key
    first sends its one POST, with that key in the headers and the query
    and the count in the body; every call after it is the request of a
    page, and the environment is the one [load_dotenv()] left. *)
Theorem metaphor_search_posts_once_then_only_gets q n w key :
  dotenv (environ w) !! "METAPHOR_API_KEY" = Some key →
  key ≠ "" →
  environ (snd (metaphor_search q n w)) = dotenv (environ w) ∧
  ∃ rest,
    net_log (snd (metaphor_search q n w)) =
      (net_log w ++ metaphor_call q n key :: rest)%list ∧
    Forall is_get rest.
Proof.
  intros Hkey Hne. rewrite metaphor_search_unfold, Hkey. simpl.
  apply String.eqb_neq in Hne. rewrite Hne.
  assert (Hstop : ∀ (e : exn),
    environ (snd (@Raise (list WebSearchResult) e, posted q n key w)) =
      dotenv (environ w) ∧
    ∃ rest,
      net_log (snd (@Raise (list WebSearchResult) e, posted q n key w)) =
        (net_log w ++ metaphor_call q n key :: rest)%list ∧
      Forall is_get rest).
  { intros e. split; [reflexivity|]. exists []. by split. }
  destruct (http _ _) as [response|e]; [|apply Hstop].
  destruct (json_loads_opt response) as [parsed|]; [|apply Hstop].
  destruct (getitem parsed "results") as [raw|e]; [|apply Hstop].
  destruct (py_iter raw) as [hits|e]; [|apply Hstop].
  destruct (list_comprehension_effects "url" hits (posted q n key w))
    as (Henv & rest & Hrest & Hgets & _).
  split; [by rewrite Henv|].
  exists rest. split; [|exact Hgets].
  rewrite Hrest. simpl. by rewrite <- app_assoc.
Qed.

(** X11: a [results] field that is not a list never leads to a page being
    asked for.  The loop runs over the keys of a dict and the characters
    of a string, none of which can be subscripted by ["title"], and the
    other values cannot be looped over: the search raises a [TypeError]
    right after the POST, except on an empty dict or an empty string,
    where it returns the empty list. *)
Theorem metaphor_search_results_not_a_list q n w key response parsed raw :
  dotenv (environ w) !! "METAPHOR_API_KEY" = Some key →
  key ≠ "" →
  http (net_log w) (metaphor_call q n key) = Ok response →
  json_loads_opt response = Some parsed →
  getitem parsed "results" = Ok raw →
  (∀ items, raw ≠ PList items) →
  (metaphor_search q n w = (Ok [], posted q n key w) ∧
   (raw = PDict [] ∨ raw = PStr "")) ∨
  (metaphor_search q n w = (Raise TypeError, posted q n key w) ∧
   raw ≠ PDict [] ∧ raw ≠ PStr "").
Proof.
  intros Hkey Hne Hpost Hjson Hres Hraw.
  rewrite metaphor_search_unfold, Hkey. simpl.
  apply String.eqb_neq in Hne. rewrite Hne, Hpost, Hjson, Hres.
  destruct raw as [| | | |[|c s]|items|[|[k v] entries]]; simpl;
    try (right; split; [reflexivity|split; discriminate]).
  - left. split; [reflexivity|by right].
  - by destruct (Hraw items).
  - left. split; [reflexivity|by left].
Qed.

(** X12: when the reply of the Google client has no [items] field (or is
    not a dict), [google_search] raises a [KeyError] for [items] (or a
    [TypeError]) right after the call to the client: it returns no list,
    not even an empty one, and asks for no page. *)
Theorem google_search_reply_without_items_raises q n w reply :
  google (net_log w) (google_call q n w) = Ok reply →
  ¬ has_field reply "items" →
  ∃ e,
    google_search q n w = (Raise e, called q n w) ∧
    (e = KeyError "items" ∨ e = TypeError).
Proof.
  intros Hcall Hlacks. rewrite google_search_unfold, Hcall.
  destruct (getitem_without_field reply "items" Hlacks) as [-> | ->];
    eauto.
Qed.

(** X13: a [google_search] that succeeds returns one result per item of
    the reply, in the order of the items, each with the title and the
    [link] of its item; it has made one call to the client and then one
    GET per result, in that order. *)
Theorem google_search_keeps_item_order q n w rs w' :
  google_search q n w = (Ok rs, w') →
  ∃ reply raw items,
    google (net_log w) (google_call q n w) = Ok reply ∧
    getitem reply "items" = Ok raw ∧
    py_iter raw = Ok items ∧
    length rs = length items ∧
    net_log w' =
      (net_log w ++
       google_call q n w :: map (fun r => HttpGet (link r)) rs)%list ∧
    ∀ i item, items !! i = Some item →
      ∃ r, rs !! i = Some r ∧
           getitem item "title" = Ok (title r) ∧
           getitem item "link" = Ok (link r).
Proof.
  intros H.
  apply google_search_Ok_inv in H as (reply & raw & items & Hc & Hi & Hit & H).
  apply list_comprehension_in_order in H as (Hlen & -> & Hith).
  exists reply, raw, items. repeat (split; [assumption|]).
  split; [simpl; by rewrite <- app_assoc|].
  intros i item Hitem. destruct (Hith i item Hitem) as (r & Hr & Hnorm).
  apply result_of_hit_Ok_inv in Hnorm as (Ht & Hl & _).
  by exists r.
Qed.

(** ** More on the tool *)

(** X14: when the backend returns no hit, [handle] returns the empty
    text, after the POST alone. *)
Theorem handle_without_hits_returns_empty_text self w key :
  backend_returned (query self) (num_results self) w key [] →
  handle self w =
  (Ok "", posted (query self) (num_results self) key w).
Proof.
  intros Hb. unfold handle, mbind, M_bind.
  by rewrite (metaphor_search_backend_returned _ _ _ _ _ Hb).
Qed.

(** X15: [handle] catches nothing and adds no failure of its own: it
    leaves the world as [metaphor_search] leaves it, raises exactly the
    exceptions that [metaphor_search] raises, and returns a text exactly
    when [metaphor_search] returns a list. *)
Theorem handle_raises_what_metaphor_search_raises self w :
  snd (handle self w) =
    snd (metaphor_search (query self) (num_results self) w) ∧
  (∀ e,
     fst (handle self w) = Raise e ↔
     fst (metaphor_search (query self) (num_results self) w) = Raise e) ∧
  ((∃ text, fst (handle self w) = Ok text) ↔
   ∃ rs, fst (metaphor_search (query self) (num_results self) w) = Ok rs).
Proof.
  unfold handle, mbind, M_bind.
  destruct (metaphor_search (query self) (num_results self) w)
    as [[rs|e] w1]; simpl.
  - split; [reflexivity|]. split; [intros e; split; discriminate|].
    split; eauto.
  - split; [reflexivity|]. split; [intros e'; split; intros [= ->]; reflexivity|].
    split; intros [? ?]; discriminate.
Qed.

Lemma sum_list_fmap_le {A : Type} (P : A → Prop) (f g : A → nat) xs :
  (∀ x, P x → (f x ≤ g x)%nat) →
  Forall P xs →
  (sum_list (f <$> xs) ≤ sum_list (g <$> xs))%nat.
Proof.
  intros Hfg. induction 1 as [|x xs Hx _ IH]; [reflexivity|].
  rewrite !fmap_cons. simpl. specialize (Hfg x Hx). lia.
Qed.

(** The text of a result: 24 characters of labels and line breaks around
    the title, the link and the summary. *)
Lemma WebSearchResult_str_length r :
  String.length (WebSearchResult_str r) =
  (24 + String.length (py_format (title r)) +
   String.length (py_format (link r)) + String.length (summary r))%nat.
Proof.
  unfold WebSearchResult_str. rewrite !str_length_app.
  change (String.length "Title: ") with 7%nat.
  change (String.length "Link: ") with 6%nat.
  change (String.length "Summary: ") with 9%nat.
  change (String.length nl) with 1%nat. lia.
Qed.

Lemma sum_list_fmap_plus {A : Type} (f : A → nat) (k : nat) xs :
  sum_list ((fun x => f x + k) <$> xs) =
  (sum_list (f <$> xs) + k * length xs)%nat.
Proof.
  induction xs as [|x xs IH]; [simpl; lia|].
  rewrite !fmap_cons. simpl. rewrite IH. lia.
Qed.

(** X16: the text that [handle] returns is bounded by the titles and the
    links alone.  For no result it is empty; otherwise each result takes
    at most 324 characters besides its title and its link (the labels and
    a summary of at most 300 characters; the full content is not in the
    text) and two characters separate consecutive results, so the text
    and one more separator fit in 326 characters per result besides the
    titles and the links. *)
Theorem handle_text_length_bound self w rs w' :
  metaphor_search (query self) (num_results self) w = (Ok rs, w') →
  ∃ text,
    handle self w = (Ok text, w') ∧
    (rs = [] → text = "") ∧
    (rs ≠ [] →
     (String.length text + 2 ≤
      sum_list ((fun r => 326 + String.length (inserted (title r)) +
                          String.length (inserted (link r))) <$> rs))%nat).
Proof.
  intros Hsearch. eexists. split.
  { unfold handle. by rewrite (bind_Ok _ _ _ _ _ Hsearch). }
  split; [by intros ->|]. intros Hne.
  rewrite join_length, length_fmap.
  change (String.length (nl ++ nl)) with 2%nat.
  apply metaphor_search_Ok_inv in Hsearch as (key & hits & _ & Hrs).
  apply list_comprehension_limits in Hrs.
  assert (Hlen : (1 ≤ length rs)%nat) by (destruct rs; [done|simpl; lia]).
  rewrite <- list_fmap_compose.
  pose proof (sum_list_fmap_plus
                (String.length ∘ WebSearchResult_str) 2 rs) as Hplus.
  assert (Hle :
    (sum_list ((fun r => (String.length ∘ WebSearchResult_str) r + 2)
               <$> rs) ≤
     sum_list ((fun r => 326 + String.length (inserted (title r)) +
                         String.length (inserted (link r))) <$> rs))%nat).
  { apply (sum_list_fmap_le within_default_limits); [|exact Hrs].
    intros r (_ & _ & _ & Hsum & _). unfold compose.
    rewrite WebSearchResult_str_length. unfold len in Hsum.
    unfold py_format, inserted. lia. }
  lia.
Qed.

End Search.

(** ** The scenarios *)

Local Abbreviation init_in_scenario :=
  (WebSearchResult_init Scenario.http Scenario.stripped_strings).
Local Abbreviation metaphor_search_in_scenario :=
  (metaphor_search Scenario.dotenv Scenario.http Scenario.json_loads_opt
     Scenario.stripped_strings).
Local Abbreviation handle_in_scenario :=
  (handle Scenario.dotenv Scenario.http Scenario.json_loads_opt
     Scenario.stripped_strings Scenario.builtin_str).

(** Scenario A of the spec: one hit, and the text that comes back. *)
Example scenario_capital_of_France :
  handle_in_scenario (MetaphorSearchTool_new "capital of France" 1)
    Scenario.with_key =
  (Ok Scenario.paris_block,
   Scenario.with_key_after
     [Scenario.metaphor_post "capital of France" 1;
      HttpGet (PStr Scenario.paris_url)]).
Proof. vm_compute. reflexivity. Qed.

(** A summary limit of 5 on the page about Paris. *)
Lemma summary_is_slice_of_full_content_witness :
  ∃ r w',
    init_in_scenario (PStr "Paris") (PStr Scenario.paris_url) 3500 5
      Scenario.with_key = (Ok r, w') ∧
    summary r = "Paris" ∧
    summary r = slice_to (full_content r) 5 ∧
    is_prefix (summary r) (full_content r) ∧
    ((0 ≤ 5)%Z → (len (summary r) ≤ 5)%Z).
Proof.
  eexists _, _. split; [vm_compute; reflexivity|].
  split; [reflexivity|].
  apply (summary_is_slice_of_full_content Scenario.http
           Scenario.stripped_strings (PStr "Paris")
           (PStr Scenario.paris_url) 3500 5 Scenario.with_key _
           (Scenario.with_key_after [HttpGet (PStr Scenario.paris_url)])).
  vm_compute. reflexivity.
Defined.

(** C1 as stated fails on a negative [max_summary_length]: with [-1] the
    summary is the full content without its last character, 30 characters
    long, which is more than [-1]. *)
Lemma summary_exceeds_negative_max_summary_length :
  ∃ r w',
    init_in_scenario (PStr "Paris") (PStr Scenario.paris_url) 3500 (-1)
      Scenario.with_key = (Ok r, w') ∧
    summary r = "Paris is the capital of France" ∧
    ¬ (len (summary r) ≤ max_summary_length r)%Z.
Proof.
  eexists _, _. split; [vm_compute; reflexivity|].
  split; [reflexivity|]. vm_compute. intros H. apply H. reflexivity.
Qed.

(** Scenario D of the spec: a content limit of 10 on a longer page. *)
Lemma full_content_is_truncated_page_text_witness :
  ∃ r w',
    init_in_scenario (PStr "Paris") (PStr Scenario.paris_url) 10 300
      Scenario.with_key = (Ok r, w') ∧
    full_content r = "Paris is t" ∧
    ∃ response,
      Scenario.http [] (HttpGet (PStr Scenario.paris_url)) = Ok response ∧
      full_content r =
        slice_to (page_text Scenario.stripped_strings response) 10 ∧
      is_prefix (full_content r)
        (page_text Scenario.stripped_strings response) ∧
      ((0 ≤ 10)%Z →
       (len (full_content r) ≤ 10)%Z ∧
       ((10 ≤ len (page_text Scenario.stripped_strings response))%Z →
        len (full_content r) = 10%Z)).
Proof.
  eexists _, _. split; [vm_compute; reflexivity|].
  split; [reflexivity|].
  apply (full_content_is_truncated_page_text Scenario.http
           Scenario.stripped_strings (PStr "Paris")
           (PStr Scenario.paris_url) 10 300 Scenario.with_key _
           (Scenario.with_key_after [HttpGet (PStr Scenario.paris_url)])).
  vm_compute. reflexivity.
Defined.

(** C2 as stated fails on a negative [max_content_length]: with [-1] the
    page text of 31 characters is cut to its first 30, which is neither at
    most [-1] nor exactly [-1] characters. *)
Lemma full_content_exceeds_negative_max_content_length :
  ∃ r w',
    init_in_scenario (PStr "Paris") (PStr Scenario.paris_url) (-1) 300
      Scenario.with_key = (Ok r, w') ∧
    full_content r = "Paris is the capital of France" ∧
    (max_content_length r ≤
       len (page_text Scenario.stripped_strings Scenario.paris_page))%Z ∧
    ¬ (len (full_content r) ≤ max_content_length r)%Z ∧
    len (full_content r) ≠ max_content_length r.
Proof.
  eexists _, _. split; [vm_compute; reflexivity|].
  split; [reflexivity|]. vm_compute.
  split; [discriminate|]. split; [|discriminate].
  intros H. apply H. reflexivity.
Qed.

(** The page about Paris normalized twice in a row. *)
Lemma normalization_is_deterministic_witness :
  Scenario.http [] (HttpGet (PStr Scenario.paris_url)) =
    Ok Scenario.paris_page ∧
  Scenario.http [HttpGet (PStr Scenario.paris_url)]
    (HttpGet (PStr Scenario.paris_url)) = Ok Scenario.paris_page ∧
  ∃ r1 w1' r2 w2',
    init_in_scenario (PStr "Paris") (PStr Scenario.paris_url) 3500 300
      Scenario.with_key = (Ok r1, w1') ∧
    init_in_scenario (PStr "Paris") (PStr Scenario.paris_url) 3500 300
      (Scenario.with_key_after [HttpGet (PStr Scenario.paris_url)]) =
      (Ok r2, w2') ∧
    title r1 = title r2 ∧ link r1 = link r2 ∧
    full_content r1 = full_content r2 ∧ summary r1 = summary r2.
Proof.
  split; [reflexivity|]. split; [reflexivity|].
  apply (normalization_is_deterministic Scenario.http
           Scenario.stripped_strings (PStr "Paris")
           (PStr Scenario.paris_url) 3500 300 Scenario.with_key
           (Scenario.with_key_after [HttpGet (PStr Scenario.paris_url)])
           Scenario.paris_page); reflexivity.
Defined.

(** Scenario B of the spec: no key, no call. *)
Lemma metaphor_search_missing_key_witness :
  Scenario.dotenv (environ Scenario.without_key) !! "METAPHOR_API_KEY" =
    None ∧
  ∃ w',
    metaphor_search_in_scenario "capital of France" 1 Scenario.without_key =
      (Raise (ValueError METAPHOR_API_KEY_not_set), w') ∧
    net_log w' = net_log Scenario.without_key.
Proof.
  split; [vm_compute; reflexivity|].
  apply (metaphor_search_missing_key_raises_before_network Scenario.dotenv
           Scenario.http Scenario.json_loads_opt Scenario.stripped_strings
           "capital of France" 1 Scenario.without_key).
  vm_compute. reflexivity.
Defined.

(** The key set to the empty string. *)
Lemma metaphor_search_empty_key_witness :
  environ Scenario.with_empty_key !! "METAPHOR_API_KEY" = Some "" ∧
  ∃ w',
    metaphor_search_in_scenario "capital of France" 1
      Scenario.with_empty_key =
      (Raise (ValueError METAPHOR_API_KEY_not_set), w') ∧
    net_log w' = net_log Scenario.with_empty_key ∧
    ∀ q0 n0 w0,
      Scenario.dotenv (environ w0) !! "METAPHOR_API_KEY" = None →
      fst (metaphor_search_in_scenario q0 n0 w0) =
        fst (metaphor_search_in_scenario "capital of France" 1
               Scenario.with_empty_key) ∧
      net_log (snd (metaphor_search_in_scenario q0 n0 w0)) = net_log w0.
Proof.
  split; [vm_compute; reflexivity|].
  apply (metaphor_search_empty_key_is_missing_key Scenario.dotenv
           Scenario.http Scenario.json_loads_opt Scenario.stripped_strings
           "capital of France" 1 Scenario.with_empty_key).
  vm_compute. reflexivity.
Defined.

(** A gateway that answers the POST with an HTML error page. *)
Lemma metaphor_search_bad_reply_witness :
  Scenario.json_loads_opt Scenario.html_error_page = None ∧
  ∃ e,
    metaphor_search_in_scenario "gateway down" 5 Scenario.with_key =
      (Raise e,
       posted Scenario.dotenv "gateway down" 5 "secret" Scenario.with_key) ∧
    (e = JSONDecodeError ∨ e = KeyError "results" ∨ e = TypeError).
Proof.
  split; [reflexivity|].
  apply (metaphor_search_bad_reply_raises Scenario.dotenv Scenario.http
           Scenario.json_loads_opt Scenario.stripped_strings
           "gateway down" 5 Scenario.with_key "secret"
           Scenario.html_error_page).
  - vm_compute. reflexivity.
  - discriminate.
  - reflexivity.
  - left. reflexivity.
Defined.

(** A JSON reply that carries an error message instead of results. *)
Example metaphor_search_reply_without_results :
  ¬ has_field (PDict [("error", PStr "rate limit exceeded")]) "results" ∧
  fst (metaphor_search_in_scenario "odd reply" 5 Scenario.with_key) =
    Raise (KeyError "results").
Proof.
  split; [|vm_compute; reflexivity].
  intros (entries & x & [= <-] & Hget). discriminate Hget.
Qed.

(** Two hits, two blocks, in the order of the hits: the text, and the
    blocks that are read back from it. *)
Lemma handle_returns_the_joined_blocks_witness :
  metaphor_search_in_scenario "cities" 2 Scenario.with_key =
    (Ok [Scenario.lyon_result; Scenario.paris_result],
     Scenario.with_key_after
       [Scenario.metaphor_post "cities" 2;
        HttpGet (PStr Scenario.lyon_url);
        HttpGet (PStr Scenario.paris_url)]) ∧
  fst (handle_in_scenario (MetaphorSearchTool_new "cities" 2)
         Scenario.with_key) =
    Ok (Scenario.lyon_block ++ nl ++ nl ++ Scenario.paris_block) ∧
  blocks_of (Scenario.lyon_block ++ nl ++ nl ++ Scenario.paris_block) =
    [Scenario.lyon_block; Scenario.paris_block] ∧
  Forall (solid_fields Scenario.builtin_str)
    [Scenario.lyon_result; Scenario.paris_result] ∧
  ∃ blocks,
    handle_in_scenario (MetaphorSearchTool_new "cities" 2)
      Scenario.with_key =
      (Ok (join (nl ++ nl) blocks),
       Scenario.with_key_after
         [Scenario.metaphor_post "cities" 2;
          HttpGet (PStr Scenario.lyon_url);
          HttpGet (PStr Scenario.paris_url)]) ∧
    length blocks = length [Scenario.lyon_result; Scenario.paris_result] ∧
    (∀ i r, [Scenario.lyon_result; Scenario.paris_result] !! i = Some r →
       blocks !! i = Some (spec_block Scenario.builtin_str r)) ∧
    (Forall (solid_fields Scenario.builtin_str)
       [Scenario.lyon_result; Scenario.paris_result] →
     blocks_of (join (nl ++ nl) blocks) = blocks).
Proof.
  assert (Hsearch :
    metaphor_search_in_scenario "cities" 2 Scenario.with_key =
    (Ok [Scenario.lyon_result; Scenario.paris_result],
     Scenario.with_key_after
       [Scenario.metaphor_post "cities" 2;
        HttpGet (PStr Scenario.lyon_url);
        HttpGet (PStr Scenario.paris_url)]))
    by (vm_compute; reflexivity).
  split; [exact Hsearch|].
  split; [vm_compute; reflexivity|].
  split; [vm_compute; reflexivity|].
  split; [repeat constructor|].
  exact (handle_returns_the_joined_blocks Scenario.dotenv Scenario.http
           Scenario.json_loads_opt Scenario.stripped_strings
           Scenario.builtin_str (MetaphorSearchTool_new "cities" 2)
           Scenario.with_key _ _ Hsearch).
Defined.

(** C5 as stated fails on the number of blocks: a page that quotes a
    result after a blank line gives, for the one result of the search, a
    text that is the join of two blocks, each of the form
    ["Title: ..\nLink: ..\nSummary: .."], and a reader finds two. *)
Lemma text_of_one_result_holds_two_blocks :
  ∃ r w',
    metaphor_search Scenario.dotenv Quoting.http Quoting.json_loads_opt
      Quoting.stripped_strings "quote" 1 Scenario.with_key =
      (Ok [r], w') ∧
    handle Scenario.dotenv Quoting.http Quoting.json_loads_opt
      Quoting.stripped_strings Scenario.builtin_str
      (MetaphorSearchTool_new "quote" 1) Scenario.with_key =
      (Ok (join (nl ++ nl) [Quoting.first_block; Quoting.second_block]),
       w') ∧
    blocks_of (join (nl ++ nl) [Quoting.first_block; Quoting.second_block]) =
      [Quoting.first_block; Quoting.second_block] ∧
    length [Quoting.first_block; Quoting.second_block] ≠ length [r].
Proof.
  eexists _, _. split; [vm_compute; reflexivity|].
  split; [vm_compute; reflexivity|].
  split; [vm_compute; reflexivity|]. discriminate.
Qed.

(** The hit about Lyon comes back first, and its block is the first. *)
Lemma handle_keeps_backend_order_witness :
  backend_returned Scenario.dotenv Scenario.http Scenario.json_loads_opt
    "cities" 2 Scenario.with_key "secret"
    [Scenario.lyon_hit; Scenario.paris_hit] ∧
  handle_in_scenario (MetaphorSearchTool_new "cities" 2) Scenario.with_key =
    (Ok (Scenario.lyon_block ++ nl ++ nl ++ Scenario.paris_block),
     Scenario.with_key_after
       [Scenario.metaphor_post "cities" 2;
        HttpGet (PStr Scenario.lyon_url);
        HttpGet (PStr Scenario.paris_url)]) ∧
  ∃ blocks,
    Scenario.lyon_block ++ nl ++ nl ++ Scenario.paris_block =
      join (nl ++ nl) blocks ∧
    length blocks = 2 ∧
    ∀ i hit, [Scenario.lyon_hit; Scenario.paris_hit] !! i = Some hit →
      ∃ r before after,
        blocks !! i =
          Some (WebSearchResult_str Scenario.builtin_str r) ∧
        getitem hit "title" = Ok (title r) ∧
        getitem hit "url" = Ok (link r) ∧
        result_of_hit Scenario.http Scenario.stripped_strings "url" hit
          before = (Ok r, after) ∧
        net_log after = (net_log before ++ [HttpGet (link r)])%list ∧
        ∃ rs, length rs = i ∧
              before = after_fetches
                         (posted Scenario.dotenv "cities" 2 "secret"
                            Scenario.with_key) rs.
Proof.
  assert (Hbackend :
    backend_returned Scenario.dotenv Scenario.http Scenario.json_loads_opt
      "cities" 2 Scenario.with_key "secret"
      [Scenario.lyon_hit; Scenario.paris_hit]).
  { split; [vm_compute; reflexivity|]. split; [discriminate|].
    eexists _, _, _. repeat split; reflexivity. }
  assert (Hhandle :
    handle_in_scenario (MetaphorSearchTool_new "cities" 2)
      Scenario.with_key =
    (Ok (Scenario.lyon_block ++ nl ++ nl ++ Scenario.paris_block),
     Scenario.with_key_after
       [Scenario.metaphor_post "cities" 2;
        HttpGet (PStr Scenario.lyon_url);
        HttpGet (PStr Scenario.paris_url)]))
    by (vm_compute; reflexivity).
  split; [exact Hbackend|]. split; [exact Hhandle|].
  exact (handle_keeps_backend_order Scenario.dotenv Scenario.http
           Scenario.json_loads_opt Scenario.stripped_strings
           Scenario.builtin_str (MetaphorSearchTool_new "cities" 2)
           Scenario.with_key "secret" _ _ _ Hbackend Hhandle).
Defined.

(** C4 at a failing input: with neither [GOOGLE_API_KEY] nor
    [GOOGLE_CSE_ID] in the environment, [google_search] raises nothing of
    its own; it calls the client with the two values [None], and with a
    client that answers, it returns a result. *)
Example google_search_without_credentials :
  Scenario.dotenv (environ Scenario.without_key) !! "GOOGLE_API_KEY" = None ∧
  Scenario.dotenv (environ Scenario.without_key) !! "GOOGLE_CSE_ID" = None ∧
  google_search Scenario.dotenv Scenario.http Scenario.google
    Scenario.stripped_strings "capital of France" 1 Scenario.without_key =
  (Ok [Scenario.paris_result],
   mkWorld ∅ [GoogleCseList None "capital of France" None 1;
              HttpGet (PStr Scenario.paris_url)]).
Proof. repeat split; vm_compute; reflexivity. Qed.

(** ** The scenarios of the further properties *)

Local Abbreviation metaphor_search_with_faults :=
  (metaphor_search Scenario.dotenv Faults.http Faults.json_loads_opt
     Scenario.stripped_strings).

(** A content limit of 5 under a summary limit of 300: the summary is cut
    by the content limit. *)
Lemma summary_is_slice_of_page_text_witness :
  ∃ r w',
    init_in_scenario (PStr "Paris") (PStr Scenario.paris_url) 5 300
      Scenario.with_key = (Ok r, w') ∧
    summary r = "Paris" ∧
    ∃ response,
      Scenario.http [] (HttpGet (PStr Scenario.paris_url)) = Ok response ∧
      summary r =
        slice_to (page_text Scenario.stripped_strings response)
          (Z.min 5 300) ∧
      is_prefix (summary r)
        (page_text Scenario.stripped_strings response) ∧
      len (summary r) =
        Z.min (len (page_text Scenario.stripped_strings response))
          (Z.min 5 300).
Proof.
  eexists _, _. split; [vm_compute; reflexivity|].
  split; [reflexivity|].
  apply (summary_is_slice_of_page_text Scenario.http
           Scenario.stripped_strings (PStr "Paris")
           (PStr Scenario.paris_url) 5 300 Scenario.with_key _
           (Scenario.with_key_after [HttpGet (PStr Scenario.paris_url)]));
    [vm_compute; reflexivity|lia|lia].
Defined.

(** The page about Paris, 31 characters, under the default limits. *)
Lemma short_page_is_kept_whole_witness :
  (len (page_text Scenario.stripped_strings Scenario.paris_page) ≤ 300)%Z ∧
  init_in_scenario (PStr "Paris") (PStr Scenario.paris_url) 3500 300
    Scenario.with_key =
  (Ok (mkWebSearchResult (PStr "Paris") (PStr Scenario.paris_url) 3500 300
         (page_text Scenario.stripped_strings Scenario.paris_page)
         (page_text Scenario.stripped_strings Scenario.paris_page)),
   fetched (PStr Scenario.paris_url) Scenario.with_key).
Proof.
  split; [vm_compute; discriminate|].
  apply (short_page_is_kept_whole Scenario.http Scenario.stripped_strings
           (PStr "Paris") (PStr Scenario.paris_url) 3500 300
           Scenario.with_key Scenario.paris_page);
    [reflexivity|vm_compute; discriminate..].
Defined.

(** The limits [-1] and [-2]: the full content loses one character, the
    summary two more. *)
Lemma lengths_of_constructed_result_witness :
  ∃ r w',
    init_in_scenario (PStr "Paris") (PStr Scenario.paris_url) (-1) (-2)
      Scenario.with_key = (Ok r, w') ∧
    full_content r = "Paris is the capital of France" ∧
    summary r = "Paris is the capital of Fran" ∧
    ∃ response,
      Scenario.http [] (HttpGet (PStr Scenario.paris_url)) = Ok response ∧
      (0 ≤ len (summary r) ≤ len (full_content r))%Z ∧
      (len (full_content r) ≤
         len (page_text Scenario.stripped_strings response))%Z ∧
      ((-1 < 0)%Z →
         len (full_content r) =
         Z.max 0 (len (page_text Scenario.stripped_strings response) + -1)) ∧
      ((-2 < 0)%Z →
         len (summary r) = Z.max 0 (len (full_content r) + -2)).
Proof.
  eexists _, _. split; [vm_compute; reflexivity|].
  split; [reflexivity|]. split; [reflexivity|].
  apply (lengths_of_constructed_result Scenario.http
           Scenario.stripped_strings (PStr "Paris")
           (PStr Scenario.paris_url) (-1) (-2) Scenario.with_key _
           (Scenario.with_key_after [HttpGet (PStr Scenario.paris_url)])).
  vm_compute. reflexivity.
Defined.

(** The result about Paris, asked for its content a second time. *)
Lemma getters_of_constructed_result_witness :
  init_in_scenario (PStr "Paris") (PStr Scenario.paris_url) 3500 300
    Scenario.with_key =
    (Ok Scenario.paris_result,
     Scenario.with_key_after [HttpGet (PStr Scenario.paris_url)]) ∧
  get_summary Scenario.paris_result = summary Scenario.paris_result ∧
  ∀ w2,
    net_log (snd (get_full_content Scenario.http Scenario.stripped_strings
                    Scenario.paris_result w2)) =
      (net_log w2 ++ [HttpGet (PStr Scenario.paris_url)])%list ∧
    (Scenario.http (net_log w2) (HttpGet (PStr Scenario.paris_url)) =
       Scenario.http (net_log Scenario.with_key)
         (HttpGet (PStr Scenario.paris_url)) →
     fst (get_full_content Scenario.http Scenario.stripped_strings
            Scenario.paris_result w2) =
       Ok (full_content Scenario.paris_result)).
Proof.
  assert (Hinit :
    init_in_scenario (PStr "Paris") (PStr Scenario.paris_url) 3500 300
      Scenario.with_key =
    (Ok Scenario.paris_result,
     Scenario.with_key_after [HttpGet (PStr Scenario.paris_url)]))
    by (vm_compute; reflexivity).
  split; [exact Hinit|].
  exact (getters_of_constructed_result Scenario.http
           Scenario.stripped_strings (PStr "Paris")
           (PStr Scenario.paris_url) 3500 300 Scenario.with_key _ _ Hinit).
Defined.

(** The two results of the query ["cities"]. *)
Lemma searches_return_results_within_default_limits_witness :
  metaphor_search_in_scenario "cities" 2 Scenario.with_key =
    (Ok [Scenario.lyon_result; Scenario.paris_result],
     Scenario.with_key_after
       [Scenario.metaphor_post "cities" 2;
        HttpGet (PStr Scenario.lyon_url);
        HttpGet (PStr Scenario.paris_url)]) ∧
  Forall within_default_limits
    [Scenario.lyon_result; Scenario.paris_result].
Proof.
  assert (Hsearch :
    metaphor_search_in_scenario "cities" 2 Scenario.with_key =
    (Ok [Scenario.lyon_result; Scenario.paris_result],
     Scenario.with_key_after
       [Scenario.metaphor_post "cities" 2;
        HttpGet (PStr Scenario.lyon_url);
        HttpGet (PStr Scenario.paris_url)]))
    by (vm_compute; reflexivity).
  split; [exact Hsearch|].
  exact (searches_return_results_within_default_limits Scenario.dotenv
           Scenario.http Scenario.google Scenario.json_loads_opt
           Scenario.stripped_strings "cities" 2 Scenario.with_key _ _
           (or_introl Hsearch)).
Defined.

(** One result asked for, two hits returned: three calls. *)
Lemma metaphor_search_network_calls_witness :
  ∃ rs w',
    metaphor_search_in_scenario "cities" 1 Scenario.with_key = (Ok rs, w') ∧
    length rs = 2 ∧
    ∃ key,
      Scenario.dotenv (environ Scenario.with_key) !! "METAPHOR_API_KEY" =
        Some key ∧ key ≠ "" ∧
      environ w' = Scenario.dotenv (environ Scenario.with_key) ∧
      net_log w' =
        (net_log Scenario.with_key ++
         metaphor_call "cities" 1 key ::
         map (fun r => HttpGet (link r)) rs)%list.
Proof.
  eexists _, _. split; [vm_compute; reflexivity|].
  split; [reflexivity|].
  apply (metaphor_search_network_calls Scenario.dotenv Scenario.http
           Scenario.json_loads_opt Scenario.stripped_strings "cities" 1
           Scenario.with_key _
           (Scenario.with_key_after
              [Scenario.metaphor_post "cities" 1;
               HttpGet (PStr Scenario.lyon_url);
               HttpGet (PStr Scenario.paris_url)])).
  vm_compute. reflexivity.
Defined.

(** Three hits, the second with a dead link: the page about Paris is
    fetched, the dead link is tried, the page about Lyon is not asked
    for. *)
Lemma metaphor_search_stops_at_first_failing_hit_witness :
  metaphor_search_with_faults "dead link" 3 Scenario.with_key =
    (Raise (LibraryError "ConnectionError"),
     Scenario.with_key_after
       [Scenario.metaphor_post "dead link" 3;
        HttpGet (PStr Scenario.paris_url);
        HttpGet (PStr Faults.dead_url)]) ∧
  ∃ last,
    [Scenario.metaphor_post "dead link" 3;
     HttpGet (PStr Scenario.paris_url);
     HttpGet (PStr Faults.dead_url)] =
      (net_log Scenario.with_key ++
       metaphor_call "dead link" 3 "secret" ::
       map (fun r => HttpGet (link r)) [Scenario.paris_result] ++ last)%list ∧
    (length last ≤ 1)%nat.
Proof.
  apply (metaphor_search_stops_at_first_failing_hit Scenario.dotenv
           Faults.http Faults.json_loads_opt Scenario.stripped_strings
           "dead link" 3 Scenario.with_key "secret"
           [Scenario.paris_hit] Faults.dead_hit [Scenario.lyon_hit]
           [Scenario.paris_result]
           (Scenario.with_key_after
              [Scenario.metaphor_post "dead link" 3;
               HttpGet (PStr Scenario.paris_url)])
           (LibraryError "ConnectionError")
           (Scenario.with_key_after
              [Scenario.metaphor_post "dead link" 3;
               HttpGet (PStr Scenario.paris_url);
               HttpGet (PStr Faults.dead_url)])).
  - split; [vm_compute; reflexivity|]. split; [discriminate|].
    eexists _, _, _. repeat split; reflexivity.
  - vm_compute. reflexivity.
  - vm_compute. reflexivity.
Defined.

(** A hit with a link and no title. *)
Lemma malformed_hit_raises_before_fetch_witness :
  ¬ has_field Faults.untitled_hit "title" ∧
  ∃ e,
    result_of_hit Scenario.http Scenario.stripped_strings "url"
      Faults.untitled_hit Scenario.with_key = (Raise e, Scenario.with_key) ∧
    (e = KeyError "title" ∨ e = KeyError "url" ∨ e = TypeError) ∧
    (¬ has_field Faults.untitled_hit "title" →
     e = KeyError "title" ∨ e = TypeError).
Proof.
  assert (Hno : ¬ has_field Faults.untitled_hit "title").
  { intros (entries & x & [= <-] & Hget). discriminate Hget. }
  split; [exact Hno|].
  exact (malformed_hit_raises_before_fetch Scenario.http
           Scenario.stripped_strings "url" Faults.untitled_hit
           Scenario.with_key (or_introl Hno)).
Defined.

(** A search whose second page is unreachable: the POST, then two GETs. *)
Lemma metaphor_search_posts_once_then_only_gets_witness :
  environ (snd (metaphor_search_with_faults "dead link" 3
                  Scenario.with_key)) =
    Scenario.dotenv (environ Scenario.with_key) ∧
  ∃ rest,
    net_log (snd (metaphor_search_with_faults "dead link" 3
                    Scenario.with_key)) =
      (net_log Scenario.with_key ++
       metaphor_call "dead link" 3 "secret" :: rest)%list ∧
    Forall is_get rest.
Proof.
  apply (metaphor_search_posts_once_then_only_gets Scenario.dotenv
           Faults.http Faults.json_loads_opt Scenario.stripped_strings
           "dead link" 3 Scenario.with_key "secret").
  - vm_compute. reflexivity.
  - discriminate.
Defined.

(** A reply whose [results] is a dict from titles to links. *)
Lemma metaphor_search_results_not_a_list_witness :
  getitem (PDict [("results", Faults.results_as_dict)]) "results" =
    Ok Faults.results_as_dict ∧
  ((metaphor_search_with_faults "by title" 3 Scenario.with_key =
      (Ok [], posted Scenario.dotenv "by title" 3 "secret"
                Scenario.with_key) ∧
    (Faults.results_as_dict = PDict [] ∨ Faults.results_as_dict = PStr "")) ∨
   (metaphor_search_with_faults "by title" 3 Scenario.with_key =
      (Raise TypeError,
       posted Scenario.dotenv "by title" 3 "secret" Scenario.with_key) ∧
    Faults.results_as_dict ≠ PDict [] ∧ Faults.results_as_dict ≠ PStr "")).
Proof.
  split; [reflexivity|].
  apply (metaphor_search_results_not_a_list Scenario.dotenv Faults.http
           Faults.json_loads_opt Scenario.stripped_strings "by title" 3
           Scenario.with_key "secret" Faults.dict_reply
           (PDict [("results", Faults.results_as_dict)])
           Faults.results_as_dict).
  - vm_compute. reflexivity.
  - discriminate.
  - reflexivity.
  - reflexivity.
  - reflexivity.
  - intros items. discriminate.
Defined.

(** A query that matches nothing: the reply has no [items]. *)
Lemma google_search_reply_without_items_raises_witness :
  ¬ has_field Faults.nothing_found "items" ∧
  ∃ e,
    google_search Scenario.dotenv Scenario.http Faults.google
      Scenario.stripped_strings "zzzz" 5 Scenario.without_key =
      (Raise e, called Scenario.dotenv "zzzz" 5 Scenario.without_key) ∧
    (e = KeyError "items" ∨ e = TypeError).
Proof.
  assert (Hno : ¬ has_field Faults.nothing_found "items").
  { intros (entries & x & [= <-] & Hget). discriminate Hget. }
  split; [exact Hno|].
  exact (google_search_reply_without_items_raises Scenario.dotenv
           Scenario.http Faults.google Scenario.stripped_strings "zzzz" 5
           Scenario.without_key Faults.nothing_found eq_refl Hno).
Defined.

(** Two items, Lyon ranked before Paris: two results in that order, and
    three calls. *)
Lemma google_search_keeps_item_order_witness :
  google_search Scenario.dotenv Scenario.http Ranked.google
    Scenario.stripped_strings "cities" 2 Scenario.without_key =
    (Ok [Scenario.lyon_result; Scenario.paris_result],
     mkWorld ∅ [GoogleCseList None "cities" None 2;
                HttpGet (PStr Scenario.lyon_url);
                HttpGet (PStr Scenario.paris_url)]) ∧
  ∃ reply raw items,
    Ranked.google (net_log Scenario.without_key)
      (google_call Scenario.dotenv "cities" 2 Scenario.without_key) =
      Ok reply ∧
    getitem reply "items" = Ok raw ∧
    py_iter raw = Ok items ∧
    length [Scenario.lyon_result; Scenario.paris_result] = length items ∧
    [GoogleCseList None "cities" None 2;
     HttpGet (PStr Scenario.lyon_url);
     HttpGet (PStr Scenario.paris_url)] =
      (net_log Scenario.without_key ++
       google_call Scenario.dotenv "cities" 2 Scenario.without_key ::
       map (fun r => HttpGet (link r))
         [Scenario.lyon_result; Scenario.paris_result])%list ∧
    ∀ i item, items !! i = Some item →
      ∃ r, [Scenario.lyon_result; Scenario.paris_result] !! i = Some r ∧
           getitem item "title" = Ok (title r) ∧
           getitem item "link" = Ok (link r).
Proof.
  assert (Hsearch :
    google_search Scenario.dotenv Scenario.http Ranked.google
      Scenario.stripped_strings "cities" 2 Scenario.without_key =
    (Ok [Scenario.lyon_result; Scenario.paris_result],
     mkWorld ∅ [GoogleCseList None "cities" None 2;
                HttpGet (PStr Scenario.lyon_url);
                HttpGet (PStr Scenario.paris_url)]))
    by (vm_compute; reflexivity).
  split; [exact Hsearch|].
  exact (google_search_keeps_item_order Scenario.dotenv Scenario.http
           Ranked.google Scenario.stripped_strings "cities" 2
           Scenario.without_key _ _ Hsearch).
Defined.

(** A reply with an empty list of results. *)
Lemma handle_without_hits_returns_empty_text_witness :
  backend_returned Scenario.dotenv Faults.http Faults.json_loads_opt
    "nothing" 5 Scenario.with_key "secret" [] ∧
  handle Scenario.dotenv Faults.http Faults.json_loads_opt
    Scenario.stripped_strings Scenario.builtin_str
    (MetaphorSearchTool_new "nothing" 5) Scenario.with_key =
  (Ok "", posted Scenario.dotenv "nothing" 5 "secret" Scenario.with_key).
Proof.
  assert (Hb :
    backend_returned Scenario.dotenv Faults.http Faults.json_loads_opt
      "nothing" 5 Scenario.with_key "secret" []).
  { split; [vm_compute; reflexivity|]. split; [discriminate|].
    eexists _, _, _. repeat split; reflexivity. }
  split; [exact Hb|].
  exact (handle_without_hits_returns_empty_text Scenario.dotenv Faults.http
           Faults.json_loads_opt Scenario.stripped_strings
           Scenario.builtin_str (MetaphorSearchTool_new "nothing" 5)
           Scenario.with_key "secret" Hb).
Defined.

(** The two results of the query ["cities"]: 162 characters of text. *)
Lemma handle_text_length_bound_witness :
  fst (handle_in_scenario (MetaphorSearchTool_new "cities" 2)
         Scenario.with_key) =
    Ok (Scenario.lyon_block ++ nl ++ nl ++ Scenario.paris_block) ∧
  String.length (Scenario.lyon_block ++ nl ++ nl ++ Scenario.paris_block) =
    162%nat ∧
  ∃ text,
    handle_in_scenario (MetaphorSearchTool_new "cities" 2)
      Scenario.with_key =
      (Ok text,
       Scenario.with_key_after
         [Scenario.metaphor_post "cities" 2;
          HttpGet (PStr Scenario.lyon_url);
          HttpGet (PStr Scenario.paris_url)]) ∧
    ([Scenario.lyon_result; Scenario.paris_result] = [] → text = "") ∧
    ([Scenario.lyon_result; Scenario.paris_result] ≠ [] →
     (String.length text + 2 ≤
      sum_list
        ((fun r =>
            326 + String.length (inserted Scenario.builtin_str (title r)) +
            String.length (inserted Scenario.builtin_str (link r))) <$>
         [Scenario.lyon_result; Scenario.paris_result]))%nat).
Proof.
  split; [vm_compute; reflexivity|].
  split; [vm_compute; reflexivity|].
  apply (handle_text_length_bound Scenario.dotenv Scenario.http
           Scenario.json_loads_opt Scenario.stripped_strings
           Scenario.builtin_str (MetaphorSearchTool_new "cities" 2)
           Scenario.with_key).
  vm_compute. reflexivity.
Defined.
